(** * VTI endpoint client: job lease and heartbeat

    A shallow embedding of
    [harnesses/host_controller/vti_interface/vti_endpoint_client.py]
    (class [VtiEndpointClient]) and the properties of its lease, heartbeat
    and query operations.

    The Python objects the client handles are JSON-shaped: the job it
    leases is whatever [json.loads] made of the queue's answer.  They are
    modelled by [pyval]; a dict with string keys is a [gmap string pyval].
    The client's methods run in a monad that threads the client object,
    records the effects in program order and carries Python exceptions. *)

From Stdlib Require Import ZArith String Ascii List Lia.
From Stdlib Require Import Floats.SpecFloat.
From stdpp Require Import base option list gmap strings.

Set Warnings "-register-all".

Local Open Scope string_scope.
Local Open Scope Z_scope.

(** ** Python values and the builtins the client uses *)

Module Py.

(** The exceptions that the modelled statements can raise. *)
Inductive exn : Type :=
| KeyError
| TypeError
| ValueError
| OverflowError
| AttributeError
| IndexError
| ConnectionError.

#[global] Instance exn_eq_dec : EqDecision exn.
Proof. solve_decision. Defined.

(** Outcome of evaluating a Python expression. *)
Inductive result (A : Type) : Type :=
| Ok (a : A)
| Err (e : exn).
Arguments Ok {A} a.
Arguments Err {A} e.

(** What [json.loads] builds, which is also all that a job can be made of.
    A float is kept as its IEEE-754 decomposition (sign, mantissa,
    exponent), so comparing it with an integer and truncating it are exact. *)
Inductive pyval : Type :=
| PNone
| PBool (b : bool)
| PInt (z : Z)
| PFloat (f : spec_float)
| PStr (s : string)
| PList (l : list pyval)
| PDict (d : gmap string pyval).

(** The empty dict [{}]. *)
Definition empty_dict : pyval := PDict ∅.

(** [x is None] *)
Definition is_none (v : pyval) : bool :=
  match v with PNone => true | _ => false end.

(** Truth value of an object, as [if v:] and [not v] test it. *)
Definition truthy (v : pyval) : bool :=
  match v with
  | PNone => false
  | PBool b => b
  | PInt z => negb (z =? 0)
  | PFloat (S754_zero _) => false
  | PFloat _ => true
  | PStr s => negb (String.eqb s "")
  | PList l => match l with [] => false | _ => true end
  | PDict d => negb (bool_decide (d = ∅))
  end.

(** [f == n] for a float [f] and an integer [n]: Python compares the exact
    values, so [1.0 == 1] holds and nothing else near it does. *)
Definition float_eq_Z (f : spec_float) (n : Z) : bool :=
  match f with
  | S754_zero _ => n =? 0
  | S754_finite s m e =>
      let sm := if s then Z.neg m else Z.pos m in
      if 0 <=? e then sm * 2 ^ e =? n else sm =? n * 2 ^ (- e)
  | S754_infinity _ | S754_nan => false
  end.

(** [v == n] for an integer constant [n]. [True == 1] and [1.0 == 1]. *)
Definition eq_int (v : pyval) (n : Z) : bool :=
  match v with
  | PInt z => z =? n
  | PBool b => Z.b2z b =? n
  | PFloat f => float_eq_Z f n
  | _ => false
  end.

(** [v == s] for a string constant [s]. *)
Definition eq_str (v : pyval) (s : string) : bool :=
  match v with
  | PStr t => String.eqb t s
  | _ => false
  end.

(** [k in v] for a string [k]: a key of a dict, an element of a list, a
    substring of a string; anything else is not iterable. *)
Definition contains (k : string) (v : pyval) : result bool :=
  match v with
  | PDict d => Ok (bool_decide (is_Some (d !! k)))
  | PList l => Ok (existsb (fun x => eq_str x k) l)
  | PStr s => Ok (bool_decide (is_Some (String.index 0 k s)))
  | _ => Err TypeError
  end.

(** [v[k]] for a string [k]. Only a dict can be indexed by a string. *)
Definition getitem (v : pyval) (k : string) : result pyval :=
  match v with
  | PDict d => match d !! k with Some x => Ok x | None => Err KeyError end
  | _ => Err TypeError
  end.

(** [v[k] = x] for a string [k]; the result is the updated object. *)
Definition setitem (v : pyval) (k : string) (x : pyval) : result pyval :=
  match v with
  | PDict d => Ok (PDict (<[k := x]> d))
  | _ => Err TypeError
  end.

(** [len(v)] *)
Definition len (v : pyval) : result Z :=
  match v with
  | PList l => Ok (Z.of_nat (length l))
  | PStr s => Ok (Z.of_nat (String.length s))
  | PDict d => Ok (Z.of_nat (size d))
  | _ => Err TypeError
  end.

(** The items [for x in v] goes through: the elements of a list, the
    characters of a string, the keys of a dict. A [gmap] does not keep
    the order in which Python goes through a dict (insertion order, hash
    order before 3.7): the keys come in the map's own order. The client
    iterates only [jobs], and every property below is about a [jobs]
    that is a list. *)
Definition iter (v : pyval) : result (list pyval) :=
  match v with
  | PList l => Ok l
  | PStr s => Ok ((fun a => PStr (String a "")) <$> list_ascii_of_string s)
  | PDict d => Ok ((fun kv => PStr kv.1) <$> map_to_list d)
  | _ => Err TypeError
  end.

(** [s.split(c)] for a one-character separator: cut at every occurrence,
    keeping empty pieces; there is always at least one piece. *)
Fixpoint str_split (c : ascii) (s : string) : list string :=
  match s with
  | "" => [""]
  | String a rest =>
      if Ascii.eqb a c then "" :: str_split c rest
      else match str_split c rest with
           | piece :: pieces => String a piece :: pieces
           | [] => [String a ""]
           end
  end.

(** [v.split(c)]: only strings have the method. *)
Definition split (v : pyval) (c : ascii) : result (list string) :=
  match v with
  | PStr s => Ok (str_split c s)
  | _ => Err AttributeError
  end.

(** [l[i]] on a list of pieces. *)
Definition index {A} (l : list A) (i : nat) : result A :=
  match l !! i with Some x => Ok x | None => Err IndexError end.

(** Decimal digits read left to right. *)
Fixpoint digits (acc : Z) (s : string) : option Z :=
  match s with
  | "" => Some acc
  | String a rest =>
      match Ascii.is_nat a with
      | Some d => digits (10 * acc + Z.of_nat d) rest
      | None => None
      end
  end.

Fixpoint lstrip (s : string) : string :=
  match s with
  | String a rest => if Ascii.is_space a then lstrip rest else s
  | "" => ""
  end.

Definition strip (s : string) : string :=
  String.rev (lstrip (String.rev (lstrip s))).

(** [int(s)] for a string: surrounding whitespace is dropped, then an
    optional sign and at least one decimal digit must remain. Digits are
    the ASCII ones; digit grouping with underscores is not modelled. *)
Definition int_of_string (s : string) : option Z :=
  match strip s with
  | String "-" (String _ _ as ds) => Z.opp <$> digits 0 ds
  | String "+" (String _ _ as ds) => digits 0 ds
  | String _ _ as ds => digits 0 ds
  | "" => None
  end.

(** [int(f)] for a float: truncation toward zero. *)
Definition int_of_float (f : spec_float) : result Z :=
  match f with
  | S754_zero _ => Ok 0
  | S754_finite s m e =>
      let q := if 0 <=? e then Z.pos m * 2 ^ e else Z.pos m / 2 ^ (- e) in
      Ok (if s then - q else q)
  | S754_infinity _ => Err OverflowError
  | S754_nan => Err ValueError
  end.

(** [int(v)] *)
Definition int (v : pyval) : result Z :=
  match v with
  | PInt z => Ok z
  | PBool b => Ok (Z.b2z b)
  | PFloat f => int_of_float f
  | PStr s => match int_of_string s with Some z => Ok z | None => Err ValueError end
  | PNone | PList _ | PDict _ => Err TypeError
  end.

End Py.

(** ** The client object, its effects and its methods *)

Module Vti.
Import Py.

(** [JOB_STATUS_DICT]: the wire values of the job statuses. *)
Definition JOB_STATUS_DICT : gmap string Z :=
  {[ "ready" := 0; "leased" := 1; "complete" := 2;
     "infra-err" := 3; "expired" := 4; "bootup-err" := 5 ]}.

(** [JOB_STATUS_DICT[name]] *)
Definition job_status (name : string) : result Z :=
  match JOB_STATUS_DICT !! name with
  | Some v => Ok v
  | None => Err KeyError
  end.

(** [requests.codes.ok] *)
Definition codes_ok : Z := 200.

(** The [threading.Thread] object that [StartHeartbeat] creates. Its
    target is [UpdateLeasedJobStatus] with the two recorded arguments.
    [keep_running] is an attribute that the object does not have until
    [StopHeartbeat] sets it: [None] is [not hasattr(thread, 'keep_running')]. *)
Record thread : Type := Thread {
  th_status : string;
  th_interval : Z;
  daemon : bool;
  keep_running : option bool
}.

(** The attributes of a [VtiEndpointClient] ([_headers] is constant). *)
Record client : Type := Client {
  _url : string;
  _job : pyval;
  _heartbeat_thread : option thread
}.

(** What [requests.post] hands back: the status code and what
    [json.loads(response.text)] yields ([None] when it raises
    [ValueError], the text being no JSON document). *)
Record response : Type := Response {
  status_code : Z;
  json : option pyval
}.

(** One call of [requests.post]: an answer, or [ConnectionError] raised. *)
Inductive post_outcome : Type :=
| Answered (r : response)
| Refused.

(** The network, as the client sees it during one call: URL and JSON
    payload to outcome. Being a function, it gives two identical requests
    of a call the same outcome; where a loop repeats one request
    ([UpdateLeasedJobStatus_in_thread] below), each turn gets a network of
    its own. *)
Definition transport : Type := string -> pyval -> post_outcome.

(** Effects, recorded in program order. *)
Inductive event : Type :=
| EvPost (url : string) (payload : pyval)       (* requests.post(url, data=json.dumps(payload)) *)
| EvLog (msg : string)                          (* logging.info / error / exception *)
| EvSetJob (v : pyval)                          (* self._job = v *)
| EvSetJobItem (k : string) (v : pyval)         (* self._job[k] = v *)
| EvSetKeepRunning (b : bool)                   (* self._heartbeat_thread.keep_running = b *)
| EvThreadStart (status : string) (interval : Z) (* self._heartbeat_thread = Thread(...); .start() *)
| EvSleep (seconds : Z).                        (* time.sleep(seconds) *)

(** A method body: from the client object to a result or an exception,
    the client object afterwards and the effects it had. The object's
    changes stay when an exception is raised. *)
Definition M (A : Type) : Type := client -> result A * client * list event.

Definition ret {A} (a : A) : M A := fun c => (Ok a, c, []).

Definition raise {A} (e : exn) : M A := fun c => (Err e, c, []).

Definition bind {A B} (m : M A) (k : A -> M B) : M B :=
  fun c =>
    match m c with
    | (Ok a, c1, t1) => let '(r, c2, t2) := k a c1 in (r, c2, (t1 ++ t2)%list)
    | (Err e, c1, t1) => (Err e, c1, t1)
    end.

Notation "'let!' x ':=' m 'in' k" := (bind m (fun x => k))
  (at level 10, x name, m at level 100, k at level 200).
Notation "'do!' m 'in' k" := (bind m (fun _ => k))
  (at level 10, m at level 100, k at level 200).

(** Evaluate a pure expression that may raise. *)
Definition lift {A} (r : result A) : M A := fun c => (r, c, []).

(** Read [self]. *)
Definition self : M client := fun c => (Ok c, c, []).

Definition emit (e : event) : M unit := fun c => (Ok tt, c, [e]).

(** [try: body  except E: handler] for the exceptions [E] that [catches]
    accepts; the handler runs on the object as the body left it. *)
Definition try_except {A} (body : M A) (catches : exn -> bool) (handler : M A) : M A :=
  fun c =>
    match body c with
    | (Err e, c1, t1) =>
        if catches e then let '(r, c2, t2) := handler c1 in (r, c2, (t1 ++ t2)%list)
        else (Err e, c1, t1)
    | done => done
    end.

(** [self._job = v] *)
Definition set_job (v : pyval) : M unit :=
  fun c => (Ok tt, Client (_url c) v (_heartbeat_thread c), [EvSetJob v]).

(** [self._job[k] = v] *)
Definition set_job_item (k : string) (v : pyval) : M unit :=
  fun c =>
    match setitem (_job c) k v with
    | Ok j => (Ok tt, Client (_url c) j (_heartbeat_thread c), [EvSetJobItem k v])
    | Err e => (Err e, c, [])
    end.

(** [self._heartbeat_thread.keep_running = b]; [None] has no attributes. *)
Definition set_keep_running (b : bool) : M unit :=
  fun c =>
    match _heartbeat_thread c with
    | Some t =>
        (Ok tt,
         Client (_url c) (_job c)
                (Some (Thread (th_status t) (th_interval t) (daemon t) (Some b))),
         [EvSetKeepRunning b])
    | None => (Err AttributeError, c, [])
    end.

(** [self._heartbeat_thread = threading.Thread(target=self.UpdateLeasedJobStatus,
    args=(status, update_interval))], made a daemon and started. The new
    object has no [keep_running] attribute. *)
Definition start_thread (status : string) (update_interval : Z) : M unit :=
  fun c =>
    (Ok tt,
     Client (_url c) (_job c) (Some (Thread status update_interval true None)),
     [EvThreadStart status update_interval]).

(** [logging.error(msg, ...)] *)
Definition log_error (msg : string) : M unit := emit (EvLog msg).

(** The schedule and lab messages that [UploadScheduleInfo] and
    [UploadLabInfo] are given are protocol-buffer objects declared outside
    these sources. Each record below has the attributes that the methods
    read, as Python values; a repeated field that is looped over is a list. *)

Module TestSchedule.
Record t : Type := Make {
  test_name : pyval;
  period : pyval;
  priority : pyval;
  device : list pyval;
  shards : pyval;
  param : pyval;
  retry_count : pyval;
  gsi_storage_type : pyval;
  gsi_branch : pyval;
  gsi_build_target : pyval;
  gsi_pab_account_id : pyval;
  gsi_vendor_version : pyval;
  test_storage_type : pyval;
  test_branch : pyval;
  test_build_target : pyval;
  test_pab_account_id : pyval
}.
End TestSchedule.

Module BuildTarget.
Record t : Type := Make {
  name : pyval;
  require_signed_device_build : pyval;
  test_schedule : list TestSchedule.t
}.
End BuildTarget.

Module Schedule.
Record t : Type := Make {
  manifest_branch : pyval;
  build_storage_type : pyval;
  pab_account_id : pyval;
  build_target : list BuildTarget.t
}.
End Schedule.

Module LabDevice.
Record t : Type := Make {
  serial : pyval;
  product : pyval
}.
End LabDevice.

Module LabHost.
Record t : Type := Make {
  hostname : pyval;
  ip : pyval;
  script : pyval;
  device : list LabDevice.t
}.
End LabHost.

Module Lab.
Record t : Type := Make {
  name : pyval;
  owner : pyval;
  admin : list pyval;
  host : list LabHost.t
}.
End Lab.

Section Methods.

Variable post : transport.

(** [requests.post(url, data=json.dumps(payload), headers=self._headers)] *)
Definition requests_post (url : string) (payload : pyval) : M response :=
  do! emit (EvPost url payload) in
  match post url payload with
  | Answered r => ret r
  | Refused => raise ConnectionError
  end.

(** [json.loads(response.text)] *)
Definition json_loads (r : response) : M pyval :=
  match json r with
  | Some v => ret v
  | None => raise ValueError
  end.

(** The result [None, {}] of [LeaseJob]. *)
Definition no_job : pyval * pyval := (PNone, empty_dict).

(** [StartHeartbeat(status, update_interval)] *)
Definition StartHeartbeat (status : string) (update_interval : Z) : M unit :=
  let! c := self in
  let replaceable :=
    match _heartbeat_thread c with
    | None => true
    | Some t => bool_decide (is_Some (keep_running t))
    end in
  if replaceable then start_thread status update_interval else ret tt.

(** [LeaseJob(hostname, execute)] *)
Definition LeaseJob (hostname : string) (execute : bool) : M (pyval * pyval) :=
  if negb (truthy (PStr hostname)) then ret no_job else
  let! c := self in
  let url := _url c +:+ "job_queue/v1/get" in
  let! response := requests_post url (PDict {[ "hostname" := PStr hostname ]}) in
  if negb (status_code response =? codes_ok) then
    do! log_error "LeaseJob error" in
    ret no_job
  else
  let! response_json := json_loads response in
  let! failed :=
    (let! has_code := lift (contains "return_code" response_json) in
     if has_code then
       let! code := lift (getitem response_json "return_code") in
       ret (negb (eq_str code "SUCCESS"))
     else ret false) in
  if failed then
    do! log_error "LeaseJob error" in
    ret no_job
  else
  let! has_jobs := lift (contains "jobs" response_json) in
  if negb has_jobs then
    do! log_error "LeaseJob jobs not found in response json" in
    ret no_job
  else
  let! jobs := lift (getitem response_json "jobs") in
  let! some_jobs :=
    (if truthy jobs then
       let! n := lift (len jobs) in ret (0 <? n)
     else ret false) in
  if some_jobs then
    let! items := lift (iter jobs) in
    match items with
    | job :: _ =>
        do! (if execute then
               do! set_job job in
               StartHeartbeat "leased" 60
             else ret tt) in
        let! test_name := lift (getitem job "test_name") in
        let! pieces := lift (split test_name "/") in
        let! category := lift (index pieces 0) in
        ret (PStr category, job)
    | [] => ret no_job
    end
  else ret no_job.

(** [ExecuteJob(job)] *)
Definition ExecuteJob (job : pyval) : M (pyval * pyval) :=
  do! emit (EvLog "Job info") in
  if negb (is_none job) then
    do! set_job job in
    do! StartHeartbeat "leased" 60 in
    let! test_name := lift (getitem job "test_name") in
    let! pieces := lift (split test_name "/") in
    let! category := lift (index pieces 0) in
    ret (PStr category, job)
  else ret no_job.

(** [SetJobStatusFromLeasedTo(status)] *)
Definition SetJobStatusFromLeasedTo (status : string) : M unit :=
  let! c := self in
  let! is_leased :=
    (if negb (is_none (_job c)) then
       let! current := lift (getitem (_job c) "status") in
       let! leased := lift (job_status "leased") in
       ret (eq_int current leased)
     else ret false) in
  if is_leased then
    let! value := lift (job_status status) in
    set_job_item "status" (PInt value)
  else ret tt.

(** [StopHeartbeat(status, infra_log_url)] *)
Definition StopHeartbeat (status : string) (infra_log_url : string) : M unit :=
  do! set_keep_running false in
  let! c := self in
  if is_none (_job c) then ret tt else
  let url := _url c +:+ "job_queue/v1/heartbeat" in
  do! SetJobStatusFromLeasedTo status in
  do! set_job_item "infra_log_url" (PStr infra_log_url) in
  let! c := self in
  let! response := requests_post url (_job c) in
  do! (if negb (status_code response =? codes_ok)
       then log_error "StopHeartbeat error" else ret tt) in
  set_job PNone.

(** The heartbeat thread runs [UpdateLeasedJobStatus(status, update_interval)].
    Its body up to the loop; the result tells whether the loop is entered. *)
Definition UpdateLeasedJobStatus_enter (status : string) : M bool :=
  let! c := self in
  if is_none (_job c) then ret false else
  let! value := lift (job_status status) in
  do! set_job_item "status" (PInt value) in
  ret true.

(** One turn of its [while getattr(thread, 'keep_running', True)] loop, the
    running thread being the one the client holds; the result tells whether
    the body ran. ([threading.currentThread()] is that thread as long as
    the client has not replaced it; [UpdateLeasedJobStatus_turn] below
    takes what the loop test reads as an argument instead.) *)
Definition UpdateLeasedJobStatus_tick (update_interval : Z) : M bool :=
  let! c := self in
  let running :=
    match _heartbeat_thread c with
    | Some t => default true (keep_running t)
    | None => true
    end in
  if running then
    let url := _url c +:+ "job_queue/v1/heartbeat" in
    let! response := requests_post url (_job c) in
    do! (if negb (status_code response =? codes_ok)
         then log_error "UpdateLeasedJobStatus error" else ret tt) in
    do! emit (EvSleep update_interval) in
    ret true
  else ret false.

(** The loop, for at most [turns] turns. *)
Fixpoint UpdateLeasedJobStatus_loop (update_interval : Z) (turns : nat) : M unit :=
  match turns with
  | O => ret tt
  | S n =>
      let! ran := UpdateLeasedJobStatus_tick update_interval in
      if ran then UpdateLeasedJobStatus_loop update_interval n else ret tt
  end.

(** [UpdateLeasedJobStatus(status, update_interval)], its loop cut off
    after [turns] turns. *)
Definition UpdateLeasedJobStatus (status : string) (update_interval : Z)
    (turns : nat) : M unit :=
  let! entered := UpdateLeasedJobStatus_enter status in
  if entered then UpdateLeasedJobStatus_loop update_interval turns else ret tt.

(** The [devices] list of the payload of [UploadDeviceInfo]: of each
    device its [serial], [product] and [status]. *)
Fixpoint device_entries (devices : list pyval) : M (list pyval) :=
  match devices with
  | [] => ret []
  | device :: devices' =>
      let! serial := lift (getitem device "serial") in
      let! product := lift (getitem device "product") in
      let! status := lift (getitem device "status") in
      let new_device :=
        PDict (<[ "status" := status ]>
               (<[ "product" := product ]> (<[ "serial" := serial ]> ∅))) in
      let! entries := device_entries devices' in
      ret (new_device :: entries)
  end.

(** [UploadDeviceInfo(hostname, devices)] *)
Definition UploadDeviceInfo (hostname : string) (devices : list pyval) : M bool :=
  let! c := self in
  let url := _url c +:+ "host_info/v1/set" in
  let! entries := device_entries devices in
  let payload := PDict (<[ "devices" := PList entries ]>
                        (<[ "hostname" := PStr hostname ]> ∅)) in
  let! answer :=
    try_except
      (let! response := requests_post url payload in ret (Some response))
      (fun e => bool_decide (e = ConnectionError))
      (do! emit (EvLog "ConnectionError") in ret None) in
  match answer with
  | None => ret false
  | Some response =>
      if negb (status_code response =? codes_ok) then
        do! log_error "UploadDeviceInfo error" in
        ret false
      else ret true
  end.

(** [UploadHostVersion(hostname, vtslab_version)] *)
Definition UploadHostVersion (hostname vtslab_version : string) : M unit :=
  let! c := self in
  let url := _url c +:+ "lab_info/v1/set_version" in
  let host := PDict (<[ "vtslab_version" := PStr vtslab_version ]>
                     (<[ "hostname" := PStr hostname ]> ∅)) in
  let! answer :=
    try_except
      (let! response := requests_post url host in ret (Some response))
      (fun e => bool_decide (e = ConnectionError))
      (do! emit (EvLog "ConnectionError") in ret None) in
  match answer with
  | None => ret tt
  | Some response =>
      if negb (status_code response =? codes_ok)
      then log_error "UploadHostVersion error" else ret tt
  end.

(** [CheckBootUpStatus()] *)
Definition CheckBootUpStatus : M bool :=
  let! c := self in
  if truthy (_job c) then
    let! status := lift (getitem (_job c) "status") in
    let! bootup_err := lift (job_status "bootup-err") in
    ret (negb (eq_int status bootup_err))
  else ret false.

(** [GetJobTestType()] *)
Definition GetJobTestType : M Z :=
  let! c := self in
  let! present :=
    (if truthy (_job c) then lift (contains "test_type" (_job c)) else ret false) in
  if present then
    try_except
      (let! test_type := lift (getitem (_job c) "test_type") in
       lift (int test_type))
      (fun e => bool_decide (e = ValueError))
      (do! emit (EvLog "ValueError") in ret 0)
  else ret 0.

(** The loop of [UploadBuildInfo]: one request per build, [fail] set by
    every answer that is not [requests.codes.ok]. *)
Fixpoint UploadBuildInfo_loop (url : string) (builds : list pyval) (fail : bool)
    : M bool :=
  match builds with
  | [] => ret fail
  | build :: builds' =>
      let! response := requests_post url build in
      let! fail :=
        (if negb (status_code response =? codes_ok) then
           do! log_error "UploadBuildInfo error" in
           ret true
         else ret fail) in
      UploadBuildInfo_loop url builds' fail
  end.

(** [UploadBuildInfo(builds)] *)
Definition UploadBuildInfo (builds : list pyval) : M bool :=
  let! c := self in
  let url := _url c +:+ "build_info/v1/set" in
  let! fail := UploadBuildInfo_loop url builds false in
  if fail then ret false else ret true.






(** The dict that [UploadLabInfo] builds for a device, a host, a lab. *)
Definition lab_device (device : LabDevice.t) : pyval :=
  PDict (<[ "product" := LabDevice.product device ]>
         (<[ "serial" := LabDevice.serial device ]> ∅)).

Definition lab_host (host : LabHost.t) : pyval :=
  PDict (<[ "device" := PList (lab_device <$> LabHost.device host) ]>
         (<[ "script" := LabHost.script host ]>
          (<[ "ip" := LabHost.ip host ]>
           (<[ "hostname" := LabHost.hostname host ]> ∅)))).

Definition lab_payload (pb : Lab.t) : pyval :=
  PDict (<[ "host" := PList (lab_host <$> Lab.host pb) ]>
         (<[ "admin" := PList (Lab.admin pb) ]>
          (<[ "owner" := Lab.owner pb ]>
           (<[ "name" := Lab.name pb ]> ∅)))).

(** [for pb in pbs] of [UploadLabInfo] *)
Fixpoint UploadLabInfo_pbs (url : string) (pbs : list Lab.t) (succ : bool) : M bool :=
  match pbs with
  | [] => ret succ
  | pb :: pbs' =>
      let! response := requests_post url (lab_payload pb) in
      let! succ :=
        (if negb (status_code response =? codes_ok) then
           do! log_error "UploadLabInfo error" in
           ret false
         else ret succ) in
      UploadLabInfo_pbs url pbs' succ
  end.

(** [UploadLabInfo(pbs, clear_labinfo)]. The result is [None] where the
    method ends in a bare [return]. *)
Definition UploadLabInfo (pbs : option (list Lab.t)) (clear_labinfo : bool)
    : M (option bool) :=
  match pbs with
  | None | Some [] => ret None
  | Some pbs =>
      let! c := self in
      let url := _url c +:+ "lab_info/v1/clear" in
      let! succ :=
        (if clear_labinfo then
           let! response := requests_post url (PDict {[ "name" := PStr "na" ]}) in
           if negb (status_code response =? codes_ok) then
             do! log_error "UploadLabInfo error" in
             ret false
           else ret true
         else ret true) in
      if negb succ then ret (Some false) else
      let url := _url c +:+ "lab_info/v1/set" in
      let! succ := UploadLabInfo_pbs url pbs succ in
      ret (Some succ)
  end.

End Methods.

(** The heartbeat body as its own thread runs it, while the rest of the
    program and the network move on. A turn of the loop is given what the
    loop test reads at that moment, the [keep_running] attribute of
    [threading.currentThread()] ([None] while the thread has none), and
    the network of that moment; the result tells whether the body ran. *)
Definition UpdateLeasedJobStatus_turn (flag : option bool) (post : transport)
    (update_interval : Z) : M bool :=
  if default true flag then
    let! c := self in
    let url := _url c +:+ "job_queue/v1/heartbeat" in
    let! response := requests_post post url (_job c) in
    do! (if negb (status_code response =? codes_ok)
         then log_error "UpdateLeasedJobStatus error" else ret tt) in
    do! emit (EvSleep update_interval) in
    ret true
  else ret false.




(** [VtiEndpointClient(url)] *)
Definition ends_with (s suffix : string) : bool :=
  let n := String.length s in
  let k := String.length suffix in
  (k <=? n)%nat && String.eqb (String.substring (n - k) k s) suffix.

Definition __init__ (url : string) : client :=
  let url :=
    if String.eqb url "localhost" then "http://localhost:8080/_ah/api/"
    else
      let url :=
        if negb (String.prefix "https://" url) && negb (String.prefix "http://" url)
        then "https://" +:+ url else url in
      if ends_with url "appspot.com" then url +:+ "/_ah/api/" else url in
  Client url empty_dict None.

(** The parts of an outcome. *)
Definition result_of {A} (o : result A * client * list event) : result A := o.1.1.
Definition client_of {A} (o : result A * client * list event) : client := o.1.2.
Definition trace_of {A} (o : result A * client * list event) : list event := o.2.

(** An outcome reached after the effects [t] have taken place. *)
Definition after {A} (t : list event) (o : result A * client * list event)
  : result A * client * list event :=
  (result_of o, client_of o, (t ++ trace_of o)%list).

(** Two states of a client that differ at most in the held job. *)
Definition same_owner (c c' : client) : Prop :=
  _url c' = _url c ∧ _heartbeat_thread c' = _heartbeat_thread c.

(** Whether the server takes a request: it answers, with
    [requests.codes.ok]. *)
Definition accepted (post : transport) (url : string) (payload : pyval) : bool :=
  match post url payload with
  | Answered r => status_code r =? codes_ok
  | Refused => false
  end.

(** Whether every request among some effects was taken by the server. *)
Definition all_accepted (post : transport) (t : list event) : bool :=
  forallb (fun ev => match ev with
                     | EvPost url payload => accepted post url payload
                     | _ => true
                     end) t.

(** What [UploadDeviceInfo] sends of a device: its [serial], [product]
    and [status], when it is a dict that has the three. *)
Definition device_entry (device : pyval) : option pyval :=
  match device with
  | PDict d =>
      match d !! "serial", d !! "product", d !! "status" with
      | Some serial, Some product, Some status =>
          Some (PDict (<[ "status" := status ]>
                       (<[ "product" := product ]> (<[ "serial" := serial ]> ∅))))
      | _, _, _ => None
      end
  | _ => None
  end.


(** The network calls among some effects. *)
Definition is_post (e : event) : bool :=
  match e with EvPost _ _ => true | _ => false end.

Definition is_thread_start (e : event) : bool :=
  match e with EvThreadStart _ _ => true | _ => false end.


(** A write of the job's [status] item. *)
Definition is_status_write (e : event) : bool :=
  match e with EvSetJobItem k _ => String.eqb k "status" | _ => false end.

(** [StopHeartbeat] called again and again, each call with its own
    arguments and network: the client at the end and all the effects. *)
Fixpoint StopHeartbeat_repeatedly
    (calls : list (transport * string * string)) (c : client) : client * list event :=
  match calls with
  | [] => (c, [])
  | (post, status, infra_log_url) :: calls' =>
      let o := StopHeartbeat post status infra_log_url c in
      let '(c', t') := StopHeartbeat_repeatedly calls' (client_of o) in
      (c', (trace_of o ++ t')%list)
  end.

End Vti.

(** ** Concrete clients, jobs and networks *)

Module Scenario.
Import Py Vti.

Definition base_url : string := "http://localhost:8080/_ah/api/".

Definition job_with (status : pyval) : pyval :=
  PDict {[ "test_name" := PStr "suite1/caseX"; "status" := status ]}.

Definition first_job : pyval := job_with (PInt 0).

Definition second_job : pyval :=
  PDict {[ "test_name" := PStr "suite2/caseY"; "status" := PInt 0 ]}.

Definition queue_answer : gmap string pyval :=
  {[ "return_code" := PStr "SUCCESS"; "jobs" := PList [first_job; second_job] ]}.

(** A queue that has two jobs for any host, and accepts every heartbeat. *)
Definition queue : transport :=
  fun _ _ => Answered (Response 200 (Some (PDict queue_answer))).


(** No route to the server: every [requests.post] raises. *)
Definition unreachable : transport := fun _ _ => Refused.

(** A client just made. *)
Definition fresh : client := __init__ "localhost".

(** The heartbeat thread as [LeaseJob] starts it. *)
Definition heartbeat : thread := Thread "leased" 60 true None.

(** A client holding a job of the given status, its heartbeat running. *)
Definition holder (status : pyval) : client :=
  Client base_url (job_with status) (Some heartbeat).

(** The same client once [StopHeartbeat] has gone through. *)
Definition released : client :=
  Client base_url PNone (Some (Thread "leased" 60 true (Some false))).

(** A job that the server sent without a test name. *)
Definition unnamed_job : gmap string pyval := {[ "status" := PInt 0 ]}.

Definition unnamed_answer : gmap string pyval :=
  {[ "return_code" := PStr "SUCCESS"; "jobs" := PList [PDict unnamed_job] ]}.

Definition queue_of_unnamed : transport :=
  fun _ _ => Answered (Response 200 (Some (PDict unnamed_answer))).


(** A server that answers every request with the given status code. *)
Definition answering (code : Z) : transport :=
  fun _ _ => Answered (Response code None).

(** A server that answers 200, out of reach for empty payloads. *)
Definition picky : transport :=
  fun _ payload =>
    if truthy payload then Answered (Response 200 None) else Refused.

Definition build (id : string) : pyval := PDict {[ "build_id" := PStr id ]}.

(** A device as the host reports it, and what is sent of it. *)
Definition device : pyval :=
  PDict {[ "serial" := PStr "ABC123"; "product" := PStr "tinker";
           "status" := PStr "device"; "owner" := PStr "lab" ]}.

Definition device_sent : pyval :=
  PDict {[ "serial" := PStr "ABC123"; "product" := PStr "tinker";
           "status" := PStr "device" ]}.

Definition device_without_status : pyval :=
  PDict {[ "serial" := PStr "ABC124"; "product" := PStr "tinker" ]}.

(** A lab with one host and one device. *)
Definition lab : Lab.t :=
  Lab.Make (PStr "lab1") (PStr "owner@example.com") [PStr "admin@example.com"]
    [LabHost.Make (PStr "hostA") (PStr "10.0.0.1") (PStr "run.sh")
       [LabDevice.Make (PStr "ABC123") (PStr "tinker")]].

(** A schedule message with two build targets: two tests and none. *)
Definition test_schedule (name : string) : TestSchedule.t :=
  TestSchedule.Make (PStr name) (PInt 360) (PStr "high") [PStr "tinker"] (PInt 1)
    (PList []) (PInt 2) (PInt 1) (PStr "git_master") (PStr "aosp_arm64")
    (PStr "1") (PStr "8.1") (PInt 1) (PStr "git_master") (PStr "test_suites")
    (PStr "1").


End Scenario.

(** ** The dispatch category, in the specification's words *)

Module Spec.

(** The part of a test name before its first [/] (all of it when it has
    none). *)
Definition before_first_slash (test_name : string) : string :=
  match String.index 0 "/" test_name with
  | Some n => String.substring 0 n test_name
  | None => test_name
  end.

End Spec.

(** ** The [upload] command

    [harnesses/host_controller/command_processor/command_upload.py],
    method [CommandUpload.Run]. What the method gets from outside these
    sources is a parameter: the parsed arguments, the console with its
    table of fetched images and its [FormatString], the path of [gsutil],
    the file system and the shell. *)

Module Upload.
Import Py.

(** [args = self.arg_parser.ParseLine(arg_line)]: the two options. *)
Record arguments : Type := Args {
  src : string;
  dest : string
}.

(** What [Run] reads of [self.console] and of the host. [FormatString]
    gives [None] where it raises [KeyError]; [GetGsutilPath] gives
    [None] where it returns [None]. *)
Record environment : Type := Environment {
  device_image_info : gmap string string;
  FormatString : string -> option string;
  GetGsutilPath : option string;
  isfile : string -> bool;
  ExecuteOneShellCommand : string -> string * string * Z
}.

(** How a call ends: [return False], the end of the body reached
    ([None]), or a local variable read before it was assigned. *)
Inductive outcome : Type :=
| ReturnFalse
| ReturnNone
| UnboundLocalError.

Inductive effect : Type :=
| LogError (msg : string)     (* logging.error *)
| Shell (command : string).   (* cmd_utils.ExecuteOneShellCommand *)

(** [s[n:]] *)
Fixpoint drop_chars (n : nat) (s : string) : string :=
  match n, s with
  | S n', String _ rest => drop_chars n' rest
  | _, _ => s
  end.

(** The loop [for path in src_path_list]: the first piece that, stripped,
    is no file. *)
Fixpoint first_missing (isfile : string -> bool) (pieces : list string)
    : option string :=
  match pieces with
  | [] => None
  | path :: pieces' =>
      let src_path := strip path in
      if negb (isfile src_path) then Some src_path
      else first_missing isfile pieces'
  end.

(** ["{} cp {} {}".format(gsutil_path, src_paths, dest_path)] *)
Definition copy_command (gsutil_path src_paths dest_path : string) : string :=
  gsutil_path +:+ " cp " +:+ src_paths +:+ " " +:+ dest_path.

(** [Run(arg_line)], from the parsed arguments on. The local variable
    [src_paths] is only assigned where the source is no [latest-] name:
    [resolved] is the early return of the first part of the body or else
    the variable, [None] while it is unassigned. *)
Definition Run (env : environment) (args : arguments) : outcome * list effect :=
  match GetGsutilPath env with
  | None | Some "" =>
      (ReturnFalse, [LogError "Please check gsutil is installed and on your PATH"])
  | Some gsutil_path =>
      let resolved : outcome * list effect + option string :=
        if String.prefix "latest-" (src args) then
          let src_name := drop_chars 7 (src args) in
          match device_image_info env !! src_name with
          | Some src_path => inr None
          | None =>
              inl (ReturnFalse,
                   [LogError ("Unable to find " +:+ src_name
                              +:+ " in device_image_info")])
          end
        else
          match FormatString env (src args) with
          | Some src_paths => inr (Some src_paths)
          | None =>
              inl (ReturnFalse, [LogError "Unknown or uninitialized variable in src"])
          end in
      match resolved with
      | inl early => early
      | inr None => (UnboundLocalError, [])
      | inr (Some src_paths) =>
          let src_path_list := str_split " " src_paths in
          match first_missing (isfile env) src_path_list with
          | Some src_path =>
              (ReturnFalse, [LogError ("Cannot find a file: " +:+ src_path)])
          | None =>
              match FormatString env (dest args) with
              | None =>
                  (ReturnFalse, [LogError "Unknown or uninitialized variable in dest"])
              | Some dest_path =>
                  if negb (String.prefix "gs://" dest_path) then
                    (ReturnFalse, [LogError (dest_path +:+ " is not correct GCS url.")])
                  else
                    let command := copy_command gsutil_path src_paths dest_path in
                    let '(_, stderr, err_code) := ExecuteOneShellCommand env command in
                    if negb (err_code =? 0)
                    then (ReturnNone, [Shell command; LogError stderr])
                    else (ReturnNone, [Shell command])
              end
          end
      end
  end.

(** A host for examples: [gsutil] installed, one image on disk and in
    the table of fetched images, strings formatted to themselves, and a
    shell whose commands fail with the given code. *)
Definition example_environment (err_code : Z) : environment :=
  Environment {[ "system.img" := "/tmp/system.img" ]}
              (fun s => Some s)
              (Some "/usr/bin/gsutil")
              (fun path => String.eqb path "/tmp/system.img")
              (fun _ => ("", "AccessDenied", err_code)).

(** The shell commands among some effects. *)
Definition commands (t : list effect) : list string :=
  omap (fun e => match e with Shell cmd => Some cmd | LogError _ => None end) t.

End Upload.

(** * Properties *)

Import Py Vti.

(** ** Running monadic code *)

Section MonadLaws.

Context {A B : Type}.

Lemma bind_ret (a : A) (k : A -> M B) (c : client) :
  bind (ret a) k c = k a c.
Proof. unfold bind, ret. by destruct (k a c) as [[r c2] t2]. Qed.

Lemma bind_lift_Ok (a : A) (k : A -> M B) (c : client) :
  bind (lift (Ok a)) k c = k a c.
Proof. unfold bind, lift. by destruct (k a c) as [[r c2] t2]. Qed.

Lemma bind_lift_Err (e : exn) (k : A -> M B) (c : client) :
  bind (lift (Err e)) k c = (Err e, c, []).
Proof. reflexivity. Qed.

Lemma bind_raise (e : exn) (k : A -> M B) (c : client) :
  bind (raise e) k c = (Err e, c, []).
Proof. reflexivity. Qed.

Lemma bind_self (k : client -> M B) (c : client) :
  bind self k c = k c c.
Proof. unfold bind, self. by destruct (k c c) as [[r c2] t2]. Qed.

Lemma bind_emit (ev : event) (k : unit -> M B) (c : client) :
  bind (emit ev) k c = after [ev] (k tt c).
Proof. unfold bind, emit. by destruct (k tt c) as [[r c2] t2]. Qed.

(** The two ways a sequence goes on once its first part is known. *)
Lemma bind_Ok (m : M A) (k : A -> M B) (c c1 : client) (a : A) (t1 : list event) :
  m c = (Ok a, c1, t1) -> bind m k c = after t1 (k a c1).
Proof. intros Hm. unfold bind. rewrite Hm. by destruct (k a c1) as [[r c2] t2]. Qed.

Lemma bind_Err (m : M A) (k : A -> M B) (c c1 : client) (e : exn) (t1 : list event) :
  m c = (Err e, c1, t1) -> bind m k c = (Err e, c1, t1).
Proof. intros Hm. unfold bind. by rewrite Hm. Qed.

Lemma bind_ext (m : M A) (k k' : A -> M B) (c : client) :
  (forall a c1, k a c1 = k' a c1) -> bind m k c = bind m k' c.
Proof.
  intros Hk. unfold bind. destruct (m c) as [[[a|e] c1] t1]; [|done].
  by rewrite Hk.
Qed.

Lemma bind_assoc {C : Type} (m : M A) (k : A -> M B) (h : B -> M C) (c : client) :
  bind (bind m k) h c = bind m (fun a => bind (k a) h) c.
Proof.
  unfold bind. destruct (m c) as [[[a|e] c1] t1]; [|done].
  destruct (k a c1) as [[[b|e] c2] t2]; [|done].
  destruct (h b c2) as [[r c3] t3]. by rewrite app_assoc.
Qed.

End MonadLaws.

Lemma after_nil {A} (o : result A * client * list event) : after [] o = o.
Proof. by destruct o as [[r c] t]. Qed.

(** The status values used by the guards. *)
Lemma job_status_leased : job_status "leased" = Ok 1.
Proof. reflexivity. Qed.

Lemma job_status_bootup_err : job_status "bootup-err" = Ok 5.
Proof. reflexivity. Qed.

(** ** Empty hostname *)

(** C3. [LeaseJob] called with the empty hostname returns [None, {}], posts
    nothing (it has no effect at all) and leaves the client as it was,
    whatever the network would answer and whatever [execute] is. *)
Theorem LeaseJob_empty_hostname (post : transport) (execute : bool) (c : client) :
  LeaseJob post "" execute c = (Ok (PNone, PDict ∅), c, []).
Proof. reflexivity. Qed.

(** ** The dispatch category *)

Lemma prefix_slash (a : ascii) (s : string) :
  String.prefix "/" (String a s) = Ascii.eqb a "/".
Proof.
  change (String.prefix "/" (String a s))
    with (if ascii_dec "/" a then String.prefix "" s else false).
  destruct (ascii_dec "/" a) as [<-|Hne].
  - by destruct s.
  - symmetry. apply Ascii.eqb_neq. congruence.
Qed.

(** The first piece of [test_name.split("/")] is the part before the first
    slash. *)
Lemma str_split_first (s : string) :
  index (str_split "/" s) 0 = Ok (Spec.before_first_slash s).
Proof.
  unfold Spec.before_first_slash.
  induction s as [|a s IH].
  - reflexivity.
  - change (String.index 0 "/" (String a s)) with
      (if String.prefix "/" (String a s) then Some 0%nat
       else match String.index 0 "/" s with
            | Some n => Some (S n)
            | None => None
            end).
    rewrite prefix_slash. simpl str_split.
    destruct (Ascii.eqb a "/") eqn:Ha; [reflexivity|].
    destruct (str_split "/" s) as [|piece pieces] eqn:Hs; [discriminate IH|].
    unfold index in *. simpl in *.
    destruct (String.index 0 "/" s) as [n|]; simpl; congruence.
Qed.

(** ** A successful lease *)

Section SuccessfulLease.

Variables (post : transport) (c : client) (hostname : string).
Variables (body : gmap string pyval) (job : pyval) (rest : list pyval).
Variable test_name : string.

Let url : string := _url c +:+ "job_queue/v1/get".
Let payload : pyval := PDict {[ "hostname" := PStr hostname ]}.

Hypothesis hostname_given : hostname ≠ "".
Hypothesis answered : post url payload = Answered (Response 200 (Some (PDict body))).
Hypothesis return_code_ok :
  ∀ code, body !! "return_code" = Some code → eq_str code "SUCCESS" = true.
Hypothesis jobs_listed : body !! "jobs" = Some (PList (job :: rest)).
Hypothesis named : getitem job "test_name" = Ok (PStr test_name).

(** The [return_code] test of [LeaseJob] lets such an answer through. *)
Lemma return_code_passes :
  (let! has_code := lift (contains "return_code" (PDict body)) in
   if has_code then
     let! code := lift (getitem (PDict body) "return_code") in
     ret (negb (eq_str code "SUCCESS"))
   else ret false) c = (Ok false, c, []).
Proof using return_code_ok.
  cbn [contains getitem]. rewrite bind_lift_Ok.
  destruct (body !! "return_code") as [code|] eqn:Hcode.
  - rewrite bool_decide_true by eauto.
    by rewrite bind_lift_Ok, (return_code_ok code).
  - by rewrite bool_decide_false by (by intros [? ?]).
Qed.

(** The dispatch category that [LeaseJob] returns with the job. *)
Lemma category_of_job (c1 : client) :
  (let! test_name := lift (getitem job "test_name") in
   let! pieces := lift (split test_name "/") in
   let! category := lift (index pieces 0) in
   ret (PStr category, job)) c1
  = (Ok (PStr (Spec.before_first_slash test_name), job), c1, []).
Proof using named.
  rewrite named, bind_lift_Ok. cbn [split].
  by rewrite bind_lift_Ok, str_split_first, bind_lift_Ok.
Qed.

(** Up to the [execute] test, [LeaseJob] posts once and picks the head of
    the list. *)
Lemma LeaseJob_first_job (execute : bool) :
  LeaseJob post hostname execute c =
  after [EvPost url payload]
    ((do! (if execute then
             do! set_job job in StartHeartbeat "leased" 60
           else ret tt) in
      ret (PStr (Spec.before_first_slash test_name), job)) c).
Proof using hostname_given answered return_code_ok jobs_listed named.
  unfold LeaseJob.
  replace (truthy (PStr hostname)) with true
    by (symmetry; apply negb_true_iff, String.eqb_neq, hostname_given).
  cbv [negb]. rewrite bind_self.
  unfold requests_post. rewrite bind_assoc, bind_emit.
  fold url payload. rewrite answered, bind_ret.
  cbn [status_code json json_loads].
  change (200 =? codes_ok) with true. cbv iota.
  rewrite bind_ret, (bind_Ok _ _ _ _ _ _ return_code_passes), after_nil.
  cbn [contains getitem].
  rewrite jobs_listed, bool_decide_true, !bind_lift_Ok by eauto.
  cbn [truthy len iter].
  rewrite bind_assoc, bind_lift_Ok, bind_ret.
  replace (0 <? Z.of_nat (length (job :: rest))) with true
    by (symmetry; apply Z.ltb_lt; simpl length; lia).
  rewrite bind_lift_Ok. f_equal.
  apply bind_ext. intros _ c1. apply category_of_job.
Qed.

(** C4. When the queue answers a host's request with success and a list
    of jobs that is not empty, [LeaseJob(hostname)] ([execute] left at its
    default, [True]) makes the first job of the list the client's held
    job and returns it together with the part of its test name before
    the first slash. *)
Theorem LeaseJob_takes_first_job :
  let o := LeaseJob post hostname true c in
  result_of o = Ok (PStr (Spec.before_first_slash test_name), job)
  ∧ _job (client_of o) = job.
Proof using hostname_given answered return_code_ok jobs_listed named.
  intros o. subst o. rewrite LeaseJob_first_job.
  rewrite bind_assoc.
  rewrite (bind_Ok (set_job job) _ c
             (Client (_url c) job (_heartbeat_thread c)) tt [EvSetJob job])
    by reflexivity.
  unfold StartHeartbeat. rewrite bind_assoc, bind_self.
  cbn [_heartbeat_thread].
  by destruct (_heartbeat_thread c) as [[s i d [b|]]|].
Qed.

(** C10. With [execute] false the same answer makes [LeaseJob] return the
    first job and its category after its one request, and nothing else:
    the client (held job and heartbeat thread included) is as before and
    no thread is started. *)
Theorem LeaseJob_without_execute :
  LeaseJob post hostname false c =
  (Ok (PStr (Spec.before_first_slash test_name), job), c, [EvPost url payload]).
Proof using hostname_given answered return_code_ok jobs_listed named.
  by rewrite LeaseJob_first_job, bind_ret.
Qed.

End SuccessfulLease.

Lemma queue_return_code_ok (code : pyval) :
  Scenario.queue_answer !! "return_code" = Some code -> eq_str code "SUCCESS" = true.
Proof.
  change (Scenario.queue_answer !! "return_code") with (Some (PStr "SUCCESS")).
  by intros [= <-].
Qed.

(** Host [hostA] asks a queue holding [suite1/caseX] and [suite2/caseY]:
    the first is held, the category is [suite1]. *)
Lemma LeaseJob_takes_first_job_witness :
  "hostA" ≠ ""
  ∧ result_of (LeaseJob Scenario.queue "hostA" true Scenario.fresh)
    = Ok (PStr "suite1", Scenario.first_job)
  ∧ _job (client_of (LeaseJob Scenario.queue "hostA" true Scenario.fresh))
    = Scenario.first_job.
Proof.
  split; [done|].
  apply (LeaseJob_takes_first_job Scenario.queue Scenario.fresh "hostA"
           Scenario.queue_answer Scenario.first_job [Scenario.second_job]
           "suite1/caseX");
    [done | reflexivity | apply queue_return_code_ok | reflexivity | reflexivity].
Defined.

Lemma LeaseJob_without_execute_witness :
  "hostA" ≠ ""
  ∧ LeaseJob Scenario.queue "hostA" false Scenario.fresh
    = (Ok (PStr "suite1", Scenario.first_job), Scenario.fresh,
       [EvPost "http://localhost:8080/_ah/api/job_queue/v1/get"
               (PDict {[ "hostname" := PStr "hostA" ]})]).
Proof.
  split; [done|].
  apply (LeaseJob_without_execute Scenario.queue Scenario.fresh "hostA"
           Scenario.queue_answer Scenario.first_job [Scenario.second_job]
           "suite1/caseX");
    [done | reflexivity | apply queue_return_code_ok | reflexivity | reflexivity].
Defined.

(** ** No job to lease *)




(** ** The guarded transition *)

(** All that [SetJobStatusFromLeasedTo] can do. *)
Lemma SetJobStatusFromLeasedTo_cases (status : string) (c : client) :
  SetJobStatusFromLeasedTo status c =
  match _job c with
  | PNone => (Ok tt, c, [])
  | PDict d =>
      match d !! "status" with
      | None => (Err KeyError, c, [])
      | Some current =>
          if eq_int current 1 then
            match JOB_STATUS_DICT !! status with
            | Some value =>
                (Ok tt,
                 Client (_url c) (PDict (<["status" := PInt value]> d))
                        (_heartbeat_thread c),
                 [EvSetJobItem "status" (PInt value)])
            | None => (Err KeyError, c, [])
            end
          else (Ok tt, c, [])
      end
  | _ => (Err TypeError, c, [])
  end.
Proof.
  unfold SetJobStatusFromLeasedTo. rewrite bind_self.
  destruct (_job c) as [| | | | | |d] eqn:Hjob; try reflexivity.
  cbn [is_none negb getitem].
  destruct (d !! "status") as [current|]; [|reflexivity].
  rewrite bind_assoc, bind_lift_Ok, bind_assoc, job_status_leased,
    bind_lift_Ok, bind_ret.
  destruct (eq_int current 1); [|reflexivity].
  unfold job_status.
  destruct (JOB_STATUS_DICT !! status) as [value|]; [|reflexivity].
  rewrite bind_lift_Ok. unfold set_job_item. by rewrite Hjob.
Qed.

(** C1. [SetJobStatusFromLeasedTo] changes the client only when the held
    job's status equals 1 ([leased]), and then by setting the status to
    the value of the target; a job whose status is 2 ([complete]) is left
    as it is whatever the target; a job whose status is 1 does get the
    value of a known target. *)
Theorem SetJobStatusFromLeasedTo_only_from_leased
    (status : string) (c c' : client) (r : result unit) (t : list event) :
  SetJobStatusFromLeasedTo status c = (r, c', t) ->
  (c' ≠ c ->
     ∃ d current value,
       _job c = PDict d ∧ d !! "status" = Some current
       ∧ eq_int current 1 = true
       ∧ JOB_STATUS_DICT !! status = Some value
       ∧ c' = Client (_url c) (PDict (<["status" := PInt value]> d))
                     (_heartbeat_thread c))
  ∧ (∀ d, _job c = PDict d -> d !! "status" = Some (PInt 2) ->
       r = Ok tt ∧ c' = c ∧ t = [])
  ∧ (∀ d value, _job c = PDict d -> d !! "status" = Some (PInt 1) ->
       JOB_STATUS_DICT !! status = Some value ->
       r = Ok tt ∧ _job c' = PDict (<["status" := PInt value]> d)).
Proof.
  rewrite SetJobStatusFromLeasedTo_cases. intros Hrun. split; [|split].
  - intros Hchanged.
    destruct (_job c) as [| | | | | |d] eqn:Hjob; try (simplify_eq; congruence).
    destruct (d !! "status") as [current|] eqn:Hcur; [|simplify_eq; congruence].
    destruct (eq_int current 1) eqn:Hleased; [|simplify_eq; congruence].
    destruct (JOB_STATUS_DICT !! status) as [value|] eqn:Hval;
      [|simplify_eq; congruence].
    exists d, current, value. simplify_eq. by repeat split.
  - intros d Hjob Hcomplete. rewrite Hjob, Hcomplete in Hrun.
    change (eq_int (PInt 2) 1) with false in Hrun. cbv iota in Hrun.
    by simplify_eq.
  - intros d value Hjob Hleased Hvalue. rewrite Hjob, Hleased, Hvalue in Hrun.
    change (eq_int (PInt 1) 1) with true in Hrun. cbv iota in Hrun.
    by simplify_eq.
Qed.

(** A job already [complete] is asked to become [infra-err]: nothing
    happens. *)
Lemma SetJobStatusFromLeasedTo_only_from_leased_witness :
  SetJobStatusFromLeasedTo "infra-err" (Scenario.holder (PInt 2))
    = (Ok tt, Scenario.holder (PInt 2), [])
  ∧ (∀ d, _job (Scenario.holder (PInt 2)) = PDict d ->
       d !! "status" = Some (PInt 2) ->
       Ok tt = Ok tt ∧ Scenario.holder (PInt 2) = Scenario.holder (PInt 2)
       ∧ @nil event = []).
Proof.
  split; [reflexivity|].
  apply (SetJobStatusFromLeasedTo_only_from_leased "infra-err"
           (Scenario.holder (PInt 2)) (Scenario.holder (PInt 2)) (Ok tt) []).
  reflexivity.
Defined.

(** ** Releasing the lease *)

(** A sequence that returns has both parts returning. *)
Lemma bind_inv_Ok {A B} (m : M A) (k : A -> M B) (c c' : client) (b : B)
    (t : list event) :
  bind m k c = (Ok b, c', t) ->
  ∃ a c1 t1 t2, m c = (Ok a, c1, t1) ∧ k a c1 = (Ok b, c', t2) ∧ t = (t1 ++ t2)%list.
Proof.
  unfold bind. destruct (m c) as [[[a|e] c1] t1]; [|done].
  destruct (k a c1) as [[r c2] t2] eqn:Hk. intros [= -> -> <-].
  by exists a, c1, t1, t2.
Qed.

Lemma SetJobStatusFromLeasedTo_same_owner (status : string) (c c' : client)
    (r : result unit) (t : list event) :
  SetJobStatusFromLeasedTo status c = (r, c', t) -> same_owner c c'.
Proof.
  rewrite SetJobStatusFromLeasedTo_cases. unfold same_owner.
  destruct (_job c) as [| | | | | |d]; try (by intros [= _ <- _]).
  destruct (d !! "status") as [current|]; [|by intros [= _ <- _]].
  destruct (eq_int current 1); [|by intros [= _ <- _]].
  by destruct (JOB_STATUS_DICT !! status); intros [= _ <- _].
Qed.

Lemma set_job_item_same_owner (k : string) (v : pyval) (c c' : client)
    (r : result unit) (t : list event) :
  set_job_item k v c = (r, c', t) -> same_owner c c'.
Proof.
  unfold set_job_item, same_owner.
  by destruct (setitem (_job c) k v); intros [= _ <- _].
Qed.

Lemma requests_post_same_client (post : transport) (url : string) (payload : pyval)
    (c c' : client) (r : result response) (t : list event) :
  requests_post post url payload c = (r, c', t) -> c' = c.
Proof.
  unfold requests_post. rewrite bind_emit.
  by destruct (post url payload); intros [= _ <- _].
Qed.

(** The guarded transition writes the status once or not at all. *)
Lemma SetJobStatusFromLeasedTo_trace (status : string) (c : client) :
  trace_of (SetJobStatusFromLeasedTo status c) = []
  ∨ ∃ value, trace_of (SetJobStatusFromLeasedTo status c)
             = [EvSetJobItem "status" (PInt value)].
Proof.
  rewrite SetJobStatusFromLeasedTo_cases.
  destruct (_job c) as [| | | | | |d]; try (by left).
  destruct (d !! "status") as [current|]; [|by left].
  destruct (eq_int current 1); [|by left].
  destruct (JOB_STATUS_DICT !! status) as [value|]; [|by left].
  right. by exists value.
Qed.

(** [StopHeartbeat] from the guarded transition on, on a client that
    holds a job: its effects are those of the transition and then some
    that write no status, and the thread object is left as it is. *)
Lemma StopHeartbeat_after_flag (post : transport) (status infra_log_url url : string)
    (c1 : client) :
  let o :=
    (do! SetJobStatusFromLeasedTo status in
     do! set_job_item "infra_log_url" (PStr infra_log_url) in
     let! c := self in
     let! response := requests_post post url (_job c) in
     do! (if negb (status_code response =? codes_ok)
          then log_error "StopHeartbeat error" else ret tt) in
     set_job PNone) c1 in
  (∃ rest, trace_of o
           = (trace_of (SetJobStatusFromLeasedTo status c1) ++ rest)%list
           ∧ filter is_status_write rest = [])
  ∧ _heartbeat_thread (client_of o) = _heartbeat_thread c1.
Proof.
  intros o. subst o.
  destruct (SetJobStatusFromLeasedTo status c1) as [[[[]|e] c2] tg] eqn:Hguard.
  2:{ rewrite (bind_Err _ _ _ _ _ _ Hguard).
      apply SetJobStatusFromLeasedTo_same_owner in Hguard as [_ Hth].
      split; [|done]. exists []. by rewrite app_nil_r. }
  rewrite (bind_Ok _ _ _ _ _ _ Hguard).
  apply SetJobStatusFromLeasedTo_same_owner in Hguard as [_ Hth2].
  destruct (set_job_item "infra_log_url" (PStr infra_log_url) c2)
    as [[[[]|e] c3] tl] eqn:Hlog.
  2:{ rewrite (bind_Err _ _ _ _ _ _ Hlog).
      unfold set_job_item in Hlog.
      destruct (setitem (_job c2) "infra_log_url" (PStr infra_log_url));
        [done|]. injection Hlog as <- <- <-.
      cbn [after trace_of client_of fst snd].
      split; [|done]. by exists []. }
  rewrite (bind_Ok _ _ _ _ _ _ Hlog).
  pose proof (set_job_item_same_owner _ _ _ _ _ _ Hlog) as [_ Hth3].
  unfold set_job_item in Hlog.
  destruct (setitem (_job c2) "infra_log_url" (PStr infra_log_url)) as [j|];
    [|done].
  injection Hlog as <- <-.
  rewrite bind_self. unfold requests_post. rewrite bind_assoc, bind_emit.
  match goal with |- context [post ?u ?p] => destruct (post u p) as [r|] end.
  - rewrite bind_ret.
    destruct (negb (status_code r =? codes_ok)); (split; [|by rewrite <- Hth2]);
      eexists; (split; [reflexivity|done]).
  - split; [|by rewrite <- Hth2]. eexists. split; [reflexivity|done].
Qed.

(** C2. Whenever a run of [StopHeartbeat] writes the job's status, that
    write is its second effect, straight after the write
    [keep_running = False], which is the first. At the write the flag is
    set in the client: the first statement has turned the client into
    one whose thread has [keep_running] false (the job still as it was),
    the status write is the effect of the guarded transition on that
    client, which keeps the thread so, and the thread is still flagged
    in the client that the call leaves. *)
Theorem StopHeartbeat_cancels_before_transition
    (post : transport) (status infra_log_url : string) (c : client)
    (before : list event) (ev : event) (later : list event) :
  trace_of (StopHeartbeat post status infra_log_url c)
    = (before ++ ev :: later)%list ->
  is_status_write ev = true ->
  before = [EvSetKeepRunning false]
  ∧ ∃ th,
      _heartbeat_thread c = Some th
      ∧ let stopped :=
          Thread (th_status th) (th_interval th) (daemon th) (Some false) in
        let flagged := Client (_url c) (_job c) (Some stopped) in
        keep_running stopped = Some false
        ∧ set_keep_running false c = (Ok tt, flagged, [EvSetKeepRunning false])
        ∧ trace_of (SetJobStatusFromLeasedTo status flagged) = [ev]
        ∧ _heartbeat_thread (client_of (SetJobStatusFromLeasedTo status flagged))
          = Some stopped
        ∧ _heartbeat_thread (client_of (StopHeartbeat post status infra_log_url c))
          = Some stopped.
Proof.
  intros Htrace Hwrite. unfold StopHeartbeat in Htrace |- *.
  destruct (_heartbeat_thread c) as [th|] eqn:Hthread.
  2:{ erewrite bind_Err in Htrace
        by (unfold set_keep_running; rewrite Hthread; reflexivity).
      by destruct before. }
  pose (flagged := Client (_url c) (_job c)
                     (Some (Thread (th_status th) (th_interval th) (daemon th)
                                   (Some false)))).
  assert (set_keep_running false c = (Ok tt, flagged, [EvSetKeepRunning false]))
    as Hflag by (unfold set_keep_running; by rewrite Hthread).
  rewrite (bind_Ok _ _ _ _ _ _ Hflag), bind_self in Htrace |- *.
  change (_job flagged) with (_job c) in Htrace |- *.
  change (_url flagged) with (_url c) in Htrace |- *.
  destruct (is_none (_job c)) eqn:Hnone.
  { cbn in Htrace. destruct before as [|x [|y before]]; [|done..].
    injection Htrace as <-. discriminate Hwrite. }
  destruct (StopHeartbeat_after_flag post status infra_log_url
              (_url c +:+ "job_queue/v1/heartbeat") flagged)
    as [(rest & Hrest & Hquiet) Hkept].
  cbv zeta in Hrest, Hkept.
  cbn [after trace_of snd client_of fst] in Htrace |- *.
  rewrite Hrest in Htrace.
  assert (∀ x, In x rest -> is_status_write x = false) as Hrest_quiet.
  { intros x Hx. destruct (is_status_write x) eqn:Hsw; [|done].
    assert (x ∈ filter is_status_write rest) as Hin
      by (apply list_elem_of_filter; split; [by rewrite Hsw|by apply list_elem_of_In]).
    rewrite Hquiet in Hin. by apply not_elem_of_nil in Hin. }
  assert (_heartbeat_thread (client_of (SetJobStatusFromLeasedTo status flagged))
          = _heartbeat_thread flagged) as Hguard_thread.
  { destruct (SetJobStatusFromLeasedTo status flagged) as [[r2 c2] t2] eqn:Hguard.
    by apply SetJobStatusFromLeasedTo_same_owner in Hguard as [_ ?]. }
  destruct before as [|x before].
  { injection Htrace as <-. discriminate Hwrite. }
  injection Htrace as <- Htail.
  destruct (SetJobStatusFromLeasedTo_trace status flagged) as [Hnil|[value Hone]].
  - rewrite Hnil in Htail. cbn in Htail.
    rewrite (Hrest_quiet ev) in Hwrite; [done|].
    rewrite Htail. apply in_elt.
  - rewrite Hone in Htail. cbn in Htail.
    destruct before as [|y before].
    + injection Htail as <- _. split; [done|]. exists th.
      split; [done|]. cbv zeta. fold flagged.
      split; [done|]. split; [done|]. split; [exact Hone|]. split; [done|].
      exact Hkept.
    + injection Htail as _ Htail.
      rewrite (Hrest_quiet ev) in Hwrite; [done|].
      rewrite Htail. apply in_elt.
Qed.

(** A leased job is released as [complete]: stop, then the status, the
    log URL, the push, the clearing. *)
Lemma StopHeartbeat_cancels_before_transition_witness :
  let stopped := Thread "leased" 60 true (Some false) in
  let flagged := Client Scenario.base_url (Scenario.job_with (PInt 1)) (Some stopped) in
  trace_of (StopHeartbeat Scenario.queue "complete" "gs://logs/1"
                          (Scenario.holder (PInt 1)))
  = ([EvSetKeepRunning false]
     ++ EvSetJobItem "status" (PInt 2)
     :: [EvSetJobItem "infra_log_url" (PStr "gs://logs/1");
         EvPost "http://localhost:8080/_ah/api/job_queue/v1/heartbeat"
                (PDict {[ "test_name" := PStr "suite1/caseX";
                          "status" := PInt 2;
                          "infra_log_url" := PStr "gs://logs/1" ]});
         EvSetJob PNone])%list
  ∧ set_keep_running false (Scenario.holder (PInt 1))
    = (Ok tt, flagged, [EvSetKeepRunning false])
  ∧ trace_of (SetJobStatusFromLeasedTo "complete" flagged)
    = [EvSetJobItem "status" (PInt 2)]
  ∧ _heartbeat_thread (client_of (StopHeartbeat Scenario.queue "complete"
                                    "gs://logs/1" (Scenario.holder (PInt 1))))
    = Some stopped.
Proof.
  intros stopped flagged.
  assert (Htrace :
    trace_of (StopHeartbeat Scenario.queue "complete" "gs://logs/1"
                            (Scenario.holder (PInt 1)))
    = ([EvSetKeepRunning false]
       ++ EvSetJobItem "status" (PInt 2)
       :: [EvSetJobItem "infra_log_url" (PStr "gs://logs/1");
           EvPost "http://localhost:8080/_ah/api/job_queue/v1/heartbeat"
                  (PDict {[ "test_name" := PStr "suite1/caseX";
                            "status" := PInt 2;
                            "infra_log_url" := PStr "gs://logs/1" ]});
           EvSetJob PNone])%list) by (vm_compute; reflexivity).
  split; [exact Htrace|].
  destruct (StopHeartbeat_cancels_before_transition _ _ _ _ _ _ _ Htrace eq_refl)
    as (_ & th & Hth & _ & Hflag & Hwrite & _ & Hleft).
  injection Hth as <-. by repeat split.
Defined.

(** When [StopHeartbeat] returns, the client has its thread flagged to
    stop and holds no job. *)
Lemma StopHeartbeat_returned (post : transport) (status infra_log_url : string)
    (c c' : client) (t : list event) :
  StopHeartbeat post status infra_log_url c = (Ok tt, c', t) ->
  ∃ th, _heartbeat_thread c = Some th
        ∧ c' = Client (_url c) PNone
                      (Some (Thread (th_status th) (th_interval th) (daemon th)
                                    (Some false))).
Proof.
  unfold StopHeartbeat. intros Hrun.
  apply bind_inv_Ok in Hrun as ([] & c1 & t1 & t2 & Hflag & Hrest & _).
  unfold set_keep_running in Hflag.
  destruct (_heartbeat_thread c) as [th|]; [|done].
  injection Hflag as <- _. exists th. split; [done|].
  rewrite bind_self in Hrest. cbn [_job _url] in Hrest.
  destruct (is_none (_job c)) eqn:Hnone.
  { injection Hrest as <- _. by destruct (_job c). }
  apply bind_inv_Ok in Hrest as ([] & c2 & ? & ? & Hguard & Hrest & _).
  apply SetJobStatusFromLeasedTo_same_owner in Hguard as [Hurl2 Hth2].
  apply bind_inv_Ok in Hrest as ([] & c3 & ? & ? & Hlog & Hrest & _).
  apply set_job_item_same_owner in Hlog as [Hurl3 Hth3].
  rewrite bind_self in Hrest.
  apply bind_inv_Ok in Hrest as (resp & c4 & ? & ? & Hpost & Hrest & _).
  apply requests_post_same_client in Hpost as ->.
  apply bind_inv_Ok in Hrest as ([] & c5 & ? & ? & Hcode & Hrest & _).
  assert (c5 = c3) as ->
    by (by destruct (negb (status_code resp =? codes_ok)); injection Hcode as <- _).
  injection Hrest as <- _.
  rewrite Hurl3, Hurl2, Hth3, Hth2. reflexivity.
Qed.

(** [StopHeartbeat] does return when there is a thread, the held job has
    a status, the target is a known status (only needed when the job is
    leased) and the server answers, with whatever code. *)
Lemma StopHeartbeat_returns (post : transport) (status infra_log_url : string)
    (c : client) (th : thread) (d : gmap string pyval) (current : pyval) :
  _heartbeat_thread c = Some th ->
  _job c = PDict d ->
  d !! "status" = Some current ->
  (eq_int current 1 = true -> is_Some (JOB_STATUS_DICT !! status)) ->
  (∀ url payload, post url payload ≠ Refused) ->
  result_of (StopHeartbeat post status infra_log_url c) = Ok tt.
Proof.
  intros Hth Hjob Hcur Hknown Hnet. unfold StopHeartbeat.
  erewrite bind_Ok by (unfold set_keep_running; rewrite Hth; reflexivity).
  rewrite bind_self. cbn [_job _url]. rewrite Hjob. cbn [is_none].
  set (c1 := Client _ _ _).
  pose proof (SetJobStatusFromLeasedTo_cases status c1) as Hguard.
  cbn [c1 _job] in Hguard. rewrite Hcur in Hguard.
  assert (∃ d2 t2, SetJobStatusFromLeasedTo status c1
                   = (Ok tt, Client (_url c) (PDict d2) (_heartbeat_thread c1), t2))
    as (d2 & t2 & Hguard').
  { destruct (eq_int current 1).
    - destruct (Hknown eq_refl) as [value Hvalue]. rewrite Hvalue in Hguard.
      eauto.
    - exists d, []. by rewrite Hguard. }
  rewrite (bind_Ok _ _ _ _ _ _ Hguard').
  erewrite bind_Ok by reflexivity.
  rewrite bind_self. cbn [_job _url].
  unfold requests_post. rewrite bind_assoc, bind_emit.
  match goal with |- context [post ?u ?p] =>
    destruct (post u p) as [resp|] eqn:Hresp; [|by apply Hnet in Hresp] end.
  rewrite bind_ret.
  by destruct (negb (status_code resp =? codes_ok)).
Qed.

(** On a client without a job whose thread is already flagged,
    [StopHeartbeat] writes the flag again and returns. *)
Lemma StopHeartbeat_idle (post : transport) (status infra_log_url url : string)
    (s : string) (i : Z) (dm : bool) :
  let c := Client url PNone (Some (Thread s i dm (Some false))) in
  StopHeartbeat post status infra_log_url c = (Ok tt, c, [EvSetKeepRunning false]).
Proof. reflexivity. Qed.

Lemma StopHeartbeat_repeatedly_idle (calls : list (transport * string * string))
    (url s : string) (i : Z) (dm : bool) :
  let c := Client url PNone (Some (Thread s i dm (Some false))) in
  StopHeartbeat_repeatedly calls c
  = (c, repeat (EvSetKeepRunning false) (length calls)).
Proof.
  intros c. induction calls as [|[[post status] infra_log_url] calls IH].
  - reflexivity.
  - cbn [StopHeartbeat_repeatedly].
    pose proof (StopHeartbeat_idle post status infra_log_url url s i dm) as Hidle.
    cbv zeta in Hidle. fold c in Hidle. rewrite Hidle.
    cbn [client_of trace_of fst snd]. by rewrite IH.
Qed.

Lemma no_post_in_flag_writes (n : nat) :
  filter is_post (repeat (EvSetKeepRunning false) n) = [].
Proof. induction n as [|n IH]; [done|exact IH]. Qed.

(** C7. Once [StopHeartbeat] has returned, the client holds no job:
    [CheckBootUpStatus] returns [False], [GetJobTestType] returns 0, both
    without effect, and any further calls of [StopHeartbeat], with any
    arguments, return having posted nothing and leave the client as it
    is (each only writes the stop flag once more). *)
Theorem StopHeartbeat_clears_lease (post : transport) (status infra_log_url : string)
    (c c' : client) (t : list event) :
  StopHeartbeat post status infra_log_url c = (Ok tt, c', t) ->
  _job c' = PNone
  ∧ CheckBootUpStatus c' = (Ok false, c', [])
  ∧ GetJobTestType c' = (Ok 0, c', [])
  ∧ (∀ post' status' infra_log_url',
       StopHeartbeat post' status' infra_log_url' c'
       = (Ok tt, c', [EvSetKeepRunning false]))
  ∧ (∀ calls,
       (StopHeartbeat_repeatedly calls c').1 = c'
       ∧ filter is_post (StopHeartbeat_repeatedly calls c').2 = []).
Proof.
  intros Hrun. apply StopHeartbeat_returned in Hrun as (th & _ & ->).
  split; [reflexivity|]. split; [reflexivity|]. split; [reflexivity|].
  split.
  - intros post' status' infra_log_url'. apply StopHeartbeat_idle.
  - intros calls. rewrite StopHeartbeat_repeatedly_idle.
    split; [reflexivity|apply no_post_in_flag_writes].
Qed.

(** The leased job of the scenario is released as [complete]. *)
Lemma StopHeartbeat_clears_lease_witness :
  result_of (StopHeartbeat Scenario.queue "complete" "gs://logs/1"
                           (Scenario.holder (PInt 1))) = Ok tt
  ∧ client_of (StopHeartbeat Scenario.queue "complete" "gs://logs/1"
                             (Scenario.holder (PInt 1))) = Scenario.released
  ∧ _job Scenario.released = PNone
  ∧ CheckBootUpStatus Scenario.released = (Ok false, Scenario.released, [])
  ∧ GetJobTestType Scenario.released = (Ok 0, Scenario.released, [])
  ∧ (∀ post' status' infra_log_url',
       StopHeartbeat post' status' infra_log_url' Scenario.released
       = (Ok tt, Scenario.released, [EvSetKeepRunning false]))
  ∧ (∀ calls,
       (StopHeartbeat_repeatedly calls Scenario.released).1 = Scenario.released
       ∧ filter is_post (StopHeartbeat_repeatedly calls Scenario.released).2 = []).
Proof.
  split; [vm_compute; reflexivity|]. split; [vm_compute; reflexivity|].
  apply (StopHeartbeat_clears_lease Scenario.queue "complete" "gs://logs/1"
           (Scenario.holder (PInt 1)) Scenario.released
           (trace_of (StopHeartbeat Scenario.queue "complete" "gs://logs/1"
                                    (Scenario.holder (PInt 1))))).
  vm_compute. reflexivity.
Defined.

(** ** The queries *)

(** The names and values of [JOB_STATUS_DICT]. *)
Lemma JOB_STATUS_DICT_entries (name : string) (value : Z) :
  JOB_STATUS_DICT !! name = Some value ->
  In (name, value) [("ready", 0); ("leased", 1); ("complete", 2);
                    ("infra-err", 3); ("expired", 4); ("bootup-err", 5)].
Proof.
  intros Hentry. unfold JOB_STATUS_DICT in Hentry.
  repeat (apply lookup_insert_Some in Hentry as [[<- <-]|[_ Hentry]];
          [simpl; tauto|]).
  apply lookup_singleton_Some in Hentry as [<- <-]. simpl; tauto.
Qed.

(** C8. [CheckBootUpStatus] returns [True] for a held job whose status
    is the value of any status name but [bootup-err], [False] when it is
    the value of [bootup-err], and [False] when no job is held ([_job] is
    [None] or the initial [{}]); it has no effect. *)
Theorem CheckBootUpStatus_outcome (c : client) :
  (∀ d name value,
     _job c = PDict d -> d !! "status" = Some (PInt value) ->
     JOB_STATUS_DICT !! name = Some value ->
     CheckBootUpStatus c = (Ok (negb (String.eqb name "bootup-err")), c, []))
  ∧ (_job c = PNone ∨ _job c = PDict ∅ ->
     CheckBootUpStatus c = (Ok false, c, [])).
Proof.
  unfold CheckBootUpStatus. rewrite bind_self. split.
  - intros d name value Hjob Hstatus Hname. rewrite Hjob.
    assert (d ≠ ∅) by (intros ->; by rewrite lookup_empty in Hstatus).
    cbn [truthy getitem]. rewrite bool_decide_false by done. cbn [negb].
    rewrite Hstatus, bind_lift_Ok, job_status_bootup_err, bind_lift_Ok.
    cbn [eq_int]. unfold ret. do 2 f_equal. f_equal.
    apply JOB_STATUS_DICT_entries in Hname.
    by destruct Hname as [[= <- <-]|[[= <- <-]|[[= <- <-]|[[= <- <-]|
                          [[= <- <-]|[[= <- <-]|[]]]]]]].
  - by intros [-> | ->].
Qed.

(** A job in [infra-err] has booted; one in [bootup-err] has not. *)
Lemma CheckBootUpStatus_outcome_witness :
  CheckBootUpStatus (Scenario.holder (PInt 3))
    = (Ok true, Scenario.holder (PInt 3), [])
  ∧ CheckBootUpStatus (Scenario.holder (PInt 5))
    = (Ok false, Scenario.holder (PInt 5), [])
  ∧ CheckBootUpStatus Scenario.fresh = (Ok false, Scenario.fresh, []).
Proof.
  split; [|split].
  - exact (proj1 (CheckBootUpStatus_outcome (Scenario.holder (PInt 3)))
             _ "infra-err" 3 eq_refl eq_refl eq_refl).
  - exact (proj1 (CheckBootUpStatus_outcome (Scenario.holder (PInt 5)))
             _ "bootup-err" 5 eq_refl eq_refl eq_refl).
  - exact (proj2 (CheckBootUpStatus_outcome Scenario.fresh) (or_intror eq_refl)).
Defined.

(** What [GetJobTestType] does with a job that is a dict: only a
    [ValueError] of [int] is turned into the default. *)
Lemma GetJobTestType_cases (c : client) (d : gmap string pyval) :
  _job c = PDict d ->
  GetJobTestType c =
  match d !! "test_type" with
  | None => (Ok 0, c, [])
  | Some v =>
      match int v with
      | Ok z => (Ok z, c, [])
      | Err ValueError => (Ok 0, c, [EvLog "ValueError"])
      | Err e => (Err e, c, [])
      end
  end.
Proof.
  intros Hjob. unfold GetJobTestType. rewrite bind_self, Hjob.
  cbn [truthy contains getitem].
  destruct (decide (d = ∅)) as [->|Hne].
  { by rewrite lookup_empty. }
  rewrite bool_decide_false by done. cbn [negb]. rewrite bind_lift_Ok.
  destruct (d !! "test_type") as [v|]; [|by rewrite bool_decide_false by (by intros [? ?])].
  rewrite bool_decide_true by eauto.
  unfold try_except. rewrite bind_lift_Ok. unfold lift.
  by destruct (int v) as [z|[]].
Qed.

(** Without a job, [GetJobTestType] returns 0. *)
Lemma GetJobTestType_no_job (c : client) :
  _job c = PNone ∨ _job c = PDict ∅ -> GetJobTestType c = (Ok 0, c, []).
Proof. unfold GetJobTestType. rewrite bind_self. by intros [-> | ->]. Qed.

(** C9 (the code departs from it). A held job whose [test_type] is JSON
    [null] makes [GetJobTestType] raise [TypeError]: [int(None)] does not
    raise the [ValueError] that the method catches. A string that is no
    number, next to it, does give the default 0. *)
Theorem GetJobTestType_null_raises :
  let job (test_type : pyval) : pyval :=
    PDict {[ "test_name" := PStr "suite1/caseX"; "status" := PInt 1;
             "test_type" := test_type ]} in
  let c (test_type : pyval) : client :=
    Client Scenario.base_url (job test_type) (Some Scenario.heartbeat) in
  GetJobTestType (c PNone) = (Err TypeError, c PNone, [])
  ∧ GetJobTestType (c (PStr "fast")) = (Ok 0, c (PStr "fast"), [EvLog "ValueError"])
  ∧ GetJobTestType (c (PStr " 2 ")) = (Ok 2, c (PStr " 2 "), []).
Proof. repeat split; vm_compute; reflexivity. Qed.

(** ** Connection failures *)

(** [LeaseJob] has no handler around its request. *)
Lemma LeaseJob_refused (post : transport) (c : client) (hostname : string)
    (execute : bool) :
  hostname ≠ "" ->
  post (_url c +:+ "job_queue/v1/get") (PDict {[ "hostname" := PStr hostname ]})
    = Refused ->
  LeaseJob post hostname execute c
  = (Err ConnectionError, c,
     [EvPost (_url c +:+ "job_queue/v1/get") (PDict {[ "hostname" := PStr hostname ]})]).
Proof.
  intros Hhost Hpost. unfold LeaseJob.
  replace (truthy (PStr hostname)) with true
    by (symmetry; apply negb_true_iff, String.eqb_neq, Hhost).
  cbv [negb]. rewrite bind_self. unfold requests_post.
  by rewrite bind_assoc, bind_emit, Hpost.
Qed.

(** [UploadHostVersion] has one: the failure is logged and the method
    returns. *)
Lemma UploadHostVersion_refused (post : transport) (c : client)
    (hostname vtslab_version : string) :
  (∀ url payload, post url payload = Refused) ->
  result_of (UploadHostVersion post hostname vtslab_version c) = Ok tt
  ∧ client_of (UploadHostVersion post hostname vtslab_version c) = c.
Proof.
  intros Hdown. unfold UploadHostVersion. rewrite bind_self.
  unfold try_except, requests_post.
  erewrite bind_Ok; cycle 1.
  { rewrite bind_assoc, bind_emit, Hdown. reflexivity. }
  done.
Qed.

(** C6 (the code departs from it). With the server out of reach,
    [LeaseJob], a turn of the heartbeat loop and [StopHeartbeat] all end
    in the [ConnectionError] that [requests.post] raised, where
    [UploadHostVersion] and [UploadDeviceInfo], which catch it, return
    (the latter [False]). [StopHeartbeat] has by then flagged the thread
    and set the status, and still holds the job. *)
Theorem connection_failure_propagates :
  result_of (LeaseJob Scenario.unreachable "hostA" true Scenario.fresh)
    = Err ConnectionError
  ∧ result_of (UpdateLeasedJobStatus_tick Scenario.unreachable 60
                 (Scenario.holder (PInt 1)))
    = Err ConnectionError
  ∧ result_of (StopHeartbeat Scenario.unreachable "complete" ""
                 (Scenario.holder (PInt 1)))
    = Err ConnectionError
  ∧ is_none (_job (client_of (StopHeartbeat Scenario.unreachable "complete" ""
                                (Scenario.holder (PInt 1))))) = false
  ∧ result_of (UploadHostVersion Scenario.unreachable "hostA" "1.0" Scenario.fresh)
    = Ok tt
  ∧ result_of (UploadDeviceInfo Scenario.unreachable "hostA" [] Scenario.fresh)
    = Ok false.
Proof. repeat split; vm_compute; reflexivity. Qed.

(** * Further properties of the client *)

Local Open Scope list_scope.

Lemma filter_is_post_cons (ev : event) (t : list event) :
  filter is_post (ev :: t)
  = if is_post ev then ev :: filter is_post t else filter is_post t.
Proof. rewrite filter_cons. by destruct (is_post ev). Qed.


Lemma after_ret {A} (t : list event) (a : A) (c : client) :
  after t (ret a c) = (Ok a, c, t).
Proof. unfold after, ret. cbn. by rewrite app_nil_r. Qed.

(** ** Construction *)

Lemma prefix_append (p s t : string) :
  String.prefix p s = true -> String.prefix p (s +:+ t) = true.
Proof.
  revert s. induction p as [|a p IH]; intros s.
  { intros _. destruct s; [destruct t|]; reflexivity. }
  destruct s as [|b s]; [done|].
  change (String.prefix (String a p) (String b s))
    with (if ascii_dec a b then String.prefix p s else false).
  change (String.prefix (String a p) (String b s +:+ t))
    with (if ascii_dec a b then String.prefix p (s +:+ t) else false).
  destruct (ascii_dec a b); [apply IH|done].
Qed.

Lemma prefix_of_append (p s : string) : String.prefix p (p +:+ s) = true.
Proof.
  induction p as [|a p IH]; [by destruct s|].
  change (String.prefix (String a p) (String a p +:+ s))
    with (if ascii_dec a a then String.prefix p (p +:+ s) else false).
  by destruct (ascii_dec a a).
Qed.

Lemma prefix_same (s : string) : String.prefix s s = true.
Proof.
  induction s as [|a s IH]; [done|].
  change (String.prefix (String a s) (String a s))
    with (if ascii_dec a a then String.prefix s s else false).
  by destruct (ascii_dec a a).
Qed.

(** X1. The base URL of a new client. The address [localhost] gives the
    local endpoint [http://localhost:8080/_ah/api/]. Any other address is
    kept when it begins with [http://] or [https://] and gets [https://]
    put before it when it does not; if the result ends in [appspot.com],
    [/_ah/api/] is put after it. So the address given, with its scheme,
    is the beginning of the base URL, and the base URL always begins with
    [http://] or [https://]. The new client holds the empty job [{}] and
    has no heartbeat thread. *)
Theorem init_url_has_scheme (url : string) :
  let c := __init__ url in
  let with_scheme :=
    if String.prefix "https://" url || String.prefix "http://" url
    then url else "https://" +:+ url in
  (url = "localhost" -> _url c = "http://localhost:8080/_ah/api/")
  ∧ (url ≠ "localhost" ->
     _url c = if ends_with with_scheme "appspot.com"
              then with_scheme +:+ "/_ah/api/" else with_scheme)
  ∧ (url ≠ "localhost" -> String.prefix with_scheme (_url c) = true)
  ∧ (String.prefix "https://" (_url c) || String.prefix "http://" (_url c)) = true
  ∧ _job c = PDict ∅
  ∧ _heartbeat_thread c = None.
Proof.
  intros c with_scheme.
  assert (url ≠ "localhost" ->
          _url c = if ends_with with_scheme "appspot.com"
                   then with_scheme +:+ "/_ah/api/" else with_scheme) as Hurl.
  { intros Hne. subst c with_scheme. unfold __init__. cbn [_url].
    replace (String.eqb url "localhost") with false
      by (symmetry; by apply String.eqb_neq).
    by destruct (String.prefix "https://" url), (String.prefix "http://" url). }
  pose proof (prefix_same with_scheme) as Hself.
  assert ((String.prefix "https://" with_scheme
           || String.prefix "http://" with_scheme) = true) as Hscheme.
  { subst with_scheme.
    destruct (String.prefix "https://" url || String.prefix "http://" url) eqn:Hs;
      [done|].
    by rewrite (prefix_of_append "https://" url). }
  split; [by intros ->|]. split; [exact Hurl|]. split.
  { intros Hne. rewrite (Hurl Hne).
    destruct (ends_with with_scheme "appspot.com"); [|done].
    by apply prefix_append. }
  split; [|done].
  destruct (String.eqb_spec url "localhost") as [->|Hne]; [reflexivity|].
  rewrite (Hurl Hne).
  destruct (ends_with with_scheme "appspot.com"); [|done].
  apply orb_true_iff in Hscheme as [Hs|Hs];
    rewrite (prefix_append _ _ "/_ah/api/" Hs); by rewrite ?orb_true_r.
Qed.

(** A cloud address without a scheme, and the local one. *)
Lemma init_url_has_scheme_witness :
  "vtslab.appspot.com" ≠ "localhost"
  ∧ _url (__init__ "vtslab.appspot.com") = "https://vtslab.appspot.com/_ah/api/"
  ∧ _url (__init__ "localhost") = "http://localhost:8080/_ah/api/".
Proof.
  split; [done|]. split.
  - destruct (init_url_has_scheme "vtslab.appspot.com") as (_ & Hurl & _).
    by rewrite Hurl.
  - by apply (init_url_has_scheme "localhost").
Defined.

(** ** The heartbeat thread *)

(** X2. [StopHeartbeat] on a client that has no heartbeat thread (none
    was ever started) raises [AttributeError] at its first statement: the
    client is as before and nothing is posted or written. A client just
    made is in that case. *)
Theorem StopHeartbeat_without_thread (post : transport)
    (status infra_log_url : string) (c : client) :
  _heartbeat_thread c = None ->
  StopHeartbeat post status infra_log_url c = (Err AttributeError, c, []).
Proof.
  intros Hnone. unfold StopHeartbeat.
  apply bind_Err. unfold set_keep_running. by rewrite Hnone.
Qed.

Lemma StopHeartbeat_without_thread_witness :
  _heartbeat_thread (__init__ "vtslab.appspot.com") = None
  ∧ StopHeartbeat Scenario.queue "complete" "" (__init__ "vtslab.appspot.com")
    = (Err AttributeError, __init__ "vtslab.appspot.com", []).
Proof.
  split; [reflexivity|].
  by apply (StopHeartbeat_without_thread Scenario.queue "complete" ""
              (__init__ "vtslab.appspot.com")).
Defined.

(** After [StartHeartbeat] the client has a thread without the
    [keep_running] attribute. *)
Lemma StartHeartbeat_outcome (status : string) (update_interval : Z) (c : client) :
  StartHeartbeat status update_interval c =
  match _heartbeat_thread c with
  | Some {| keep_running := None |} => (Ok tt, c, [])
  | _ => (Ok tt,
          Client (_url c) (_job c) (Some (Thread status update_interval true None)),
          [EvThreadStart status update_interval])
  end.
Proof.
  unfold StartHeartbeat. rewrite bind_self.
  by destruct (_heartbeat_thread c) as [[s i d [b|]]|].
Qed.

(** X3. [StartHeartbeat] leaves the client with a heartbeat thread that
    has not been asked to stop, starting at most one thread; called again
    (with any arguments) before a [StopHeartbeat], it does nothing: the
    running thread is neither replaced nor doubled. *)
Theorem StartHeartbeat_once (status status' : string) (update_interval interval' : Z)
    (c : client) :
  let o := StartHeartbeat status update_interval c in
  result_of o = Ok tt
  ∧ (∃ th, _heartbeat_thread (client_of o) = Some th ∧ keep_running th = None)
  ∧ (length (filter is_thread_start (trace_of o)) <= 1)%nat
  ∧ StartHeartbeat status' interval' (client_of o) = (Ok tt, client_of o, []).
Proof.
  intros o. subst o. rewrite !StartHeartbeat_outcome.
  destruct (_heartbeat_thread c) as [[s i d [b|]]|] eqn:Hth;
    cbn [result_of client_of trace_of fst snd _heartbeat_thread];
    rewrite ?Hth; repeat split; eauto.
Qed.

(** ** Leasing while a heartbeat runs, and handing a job over *)

(** A job that can be subscripted by a string is a dict. *)
Lemma getitem_Ok_dict (job : pyval) (k : string) (v : pyval) :
  getitem job k = Ok v -> ∃ d, job = PDict d ∧ d !! k = Some v.
Proof.
  destruct job as [| | | | | |d]; try done. cbn [getitem].
  destruct (d !! k) as [x|] eqn:Hk; [|done]. intros [= ->]. eauto.
Qed.

(** [self._job = job; self.StartHeartbeat("leased", 60)] *)
Lemma hold_and_start (job : pyval) (c : client) :
  (do! set_job job in StartHeartbeat "leased" 60) c =
  match _heartbeat_thread c with
  | Some {| keep_running := None |} =>
      (Ok tt, Client (_url c) job (_heartbeat_thread c), [EvSetJob job])
  | _ =>
      (Ok tt, Client (_url c) job (Some (Thread "leased" 60 true None)),
       [EvSetJob job; EvThreadStart "leased" 60])
  end.
Proof.
  rewrite (bind_Ok (set_job job) _ c
             (Client (_url c) job (_heartbeat_thread c)) tt [EvSetJob job])
    by reflexivity.
  rewrite StartHeartbeat_outcome. cbn [_heartbeat_thread _url _job].
  by destruct (_heartbeat_thread c) as [[s i d [b|]]|].
Qed.

Section LeaseAndHeartbeat.

Variables (post : transport) (c : client) (hostname : string).
Variables (body : gmap string pyval) (job : pyval) (rest : list pyval).

Let url : string := _url c +:+ "job_queue/v1/get".
Let payload : pyval := PDict {[ "hostname" := PStr hostname ]}.

Hypothesis hostname_given : hostname ≠ "".
Hypothesis answered : post url payload = Answered (Response 200 (Some (PDict body))).
Hypothesis return_code_ok :
  ∀ code, body !! "return_code" = Some code → eq_str code "SUCCESS" = true.
Hypothesis jobs_listed : body !! "jobs" = Some (PList (job :: rest)).

(** [LeaseJob] up to the point where the first job is taken, whatever
    that job is. *)
Lemma LeaseJob_reaches_job (execute : bool) :
  LeaseJob post hostname execute c =
  after [EvPost url payload]
    ((do! (if execute then
             do! set_job job in StartHeartbeat "leased" 60
           else ret tt) in
      let! test_name := lift (getitem job "test_name") in
      let! pieces := lift (split test_name "/") in
      let! category := lift (index pieces 0) in
      ret (PStr category, job)) c).
Proof using hostname_given answered return_code_ok jobs_listed.
  unfold LeaseJob.
  replace (truthy (PStr hostname)) with true
    by (symmetry; apply negb_true_iff, String.eqb_neq, hostname_given).
  cbv [negb]. rewrite bind_self.
  unfold requests_post. rewrite bind_assoc, bind_emit.
  fold url payload. rewrite answered, bind_ret.
  cbn [status_code json json_loads].
  change (200 =? codes_ok) with true. cbv iota.
  rewrite bind_ret,
    (bind_Ok _ _ _ _ _ _ (return_code_passes c body return_code_ok)), after_nil.
  cbn [contains getitem].
  rewrite jobs_listed, bool_decide_true, !bind_lift_Ok by eauto.
  cbn [truthy len iter].
  rewrite bind_assoc, bind_lift_Ok, bind_ret.
  replace (0 <? Z.of_nat (length (job :: rest))) with true
    by (symmetry; apply Z.ltb_lt; simpl length; lia).
  by rewrite bind_lift_Ok.
Qed.

(** X4. A successful [LeaseJob] on a client whose heartbeat thread is
    running (it was never asked to stop) puts the new job in place of the
    held one and starts no thread: the effects are the request and the
    assignment of [_job], and the thread object is the old one. *)
Theorem LeaseJob_while_heartbeat_runs (test_name : string) (th : thread) :
  getitem job "test_name" = Ok (PStr test_name) ->
  _heartbeat_thread c = Some th ->
  keep_running th = None ->
  LeaseJob post hostname true c =
  (Ok (PStr (Spec.before_first_slash test_name), job),
   Client (_url c) job (Some th),
   [EvPost url payload; EvSetJob job]).
Proof using hostname_given answered return_code_ok jobs_listed.
  intros Hname Hth Hrun. rewrite LeaseJob_reaches_job.
  rewrite (bind_Ok _ _ c (Client (_url c) job (Some th)) tt [EvSetJob job]).
  - by rewrite (category_of_job job test_name Hname).
  - rewrite hold_and_start, Hth. by destruct th as [s i d [b|]].
Qed.

(** X5. A successful [LeaseJob] on a client without a heartbeat thread,
    or whose thread was asked to stop, holds the first job and starts one
    heartbeat thread, for status [leased] and an interval of 60 seconds,
    after its single request. *)
Theorem LeaseJob_starts_heartbeat (test_name : string) :
  getitem job "test_name" = Ok (PStr test_name) ->
  (_heartbeat_thread c = None
   ∨ ∃ th, _heartbeat_thread c = Some th ∧ is_Some (keep_running th)) ->
  LeaseJob post hostname true c =
  (Ok (PStr (Spec.before_first_slash test_name), job),
   Client (_url c) job (Some (Thread "leased" 60 true None)),
   [EvPost url payload; EvSetJob job; EvThreadStart "leased" 60]).
Proof using hostname_given answered return_code_ok jobs_listed.
  intros Hname Hth. rewrite LeaseJob_reaches_job.
  rewrite (bind_Ok _ _ c (Client (_url c) job (Some (Thread "leased" 60 true None)))
             tt [EvSetJob job; EvThreadStart "leased" 60]).
  - by rewrite (category_of_job job test_name Hname).
  - rewrite hold_and_start.
    destruct Hth as [-> | ([s i d kr] & -> & [b Hb])]; [done|].
    cbn in Hb. by subst kr.
Qed.

(** X6. When the first job of the answer is a dict without [test_name],
    [LeaseJob] raises [KeyError]; with [execute] true the job is by then
    held and the client has a heartbeat thread, with [execute] false the
    client is untouched. *)
Theorem LeaseJob_unnamed_job (d : gmap string pyval) :
  job = PDict d ->
  d !! "test_name" = None ->
  (result_of (LeaseJob post hostname true c) = Err KeyError
   ∧ _job (client_of (LeaseJob post hostname true c)) = job
   ∧ is_Some (_heartbeat_thread (client_of (LeaseJob post hostname true c))))
  ∧ LeaseJob post hostname false c = (Err KeyError, c, [EvPost url payload]).
Proof using hostname_given answered return_code_ok jobs_listed.
  intros Hjob Hname. rewrite !LeaseJob_reaches_job. split.
  - pose proof (hold_and_start job c) as Hhold.
    destruct (_heartbeat_thread c) as [[s i dm [b|]]|];
      rewrite (bind_Ok _ _ _ _ _ _ Hhold), Hjob; cbn [getitem];
      rewrite Hname; cbn; eauto.
  - rewrite bind_ret, Hjob. cbn [getitem]. by rewrite Hname.
Qed.

(** X7. Leasing with [execute] false and handing the returned job to
    [ExecuteJob] gives the result and the client that leasing with
    [execute] true gives. *)
Theorem ExecuteJob_completes_lease (test_name : string) :
  getitem job "test_name" = Ok (PStr test_name) ->
  let leased := LeaseJob post hostname false c in
  result_of leased = Ok (PStr (Spec.before_first_slash test_name), job)
  ∧ result_of (ExecuteJob job (client_of leased))
    = result_of (LeaseJob post hostname true c)
  ∧ client_of (ExecuteJob job (client_of leased))
    = client_of (LeaseJob post hostname true c).
Proof using hostname_given answered return_code_ok jobs_listed.
  intros Hname leased. subst leased. rewrite !LeaseJob_reaches_job.
  rewrite bind_ret, (category_of_job job test_name Hname).
  cbn [after result_of client_of trace_of fst snd]. split; [done|].
  unfold ExecuteJob. rewrite bind_emit.
  destruct (getitem_Ok_dict _ _ _ Hname) as (d & Hjob & _).
  replace (is_none job) with false by (by rewrite Hjob). cbn [negb].
  pose proof (hold_and_start job c) as Hhold.
  rewrite <- (bind_assoc (set_job job)
                (fun _ => StartHeartbeat "leased" 60)).
  destruct (_heartbeat_thread c) as [[s i dm [b|]]|];
    rewrite !(bind_Ok _ _ _ _ _ _ Hhold), !(category_of_job job test_name Hname);
    done.
Qed.

End LeaseAndHeartbeat.

Lemma unnamed_return_code_ok (code : pyval) :
  Scenario.unnamed_answer !! "return_code" = Some code -> eq_str code "SUCCESS" = true.
Proof.
  change (Scenario.unnamed_answer !! "return_code") with (Some (PStr "SUCCESS")).
  by intros [= <-].
Qed.

(** A second lease while the job of the scenario is held. *)
Lemma LeaseJob_while_heartbeat_runs_witness :
  "hostA" ≠ ""
  ∧ _heartbeat_thread (Scenario.holder (PInt 1)) = Some Scenario.heartbeat
  ∧ keep_running Scenario.heartbeat = None
  ∧ LeaseJob Scenario.queue "hostA" true (Scenario.holder (PInt 1))
    = (Ok (PStr "suite1", Scenario.first_job),
       Client Scenario.base_url Scenario.first_job (Some Scenario.heartbeat),
       [EvPost "http://localhost:8080/_ah/api/job_queue/v1/get"
               (PDict {[ "hostname" := PStr "hostA" ]});
        EvSetJob Scenario.first_job]).
Proof.
  split; [done|]. split; [reflexivity|]. split; [reflexivity|].
  apply (LeaseJob_while_heartbeat_runs Scenario.queue (Scenario.holder (PInt 1))
           "hostA" Scenario.queue_answer Scenario.first_job [Scenario.second_job])
    with (test_name := "suite1/caseX");
    [done | reflexivity | apply queue_return_code_ok | reflexivity
    | reflexivity | reflexivity | reflexivity].
Defined.

Lemma LeaseJob_starts_heartbeat_witness :
  "hostA" ≠ ""
  ∧ _heartbeat_thread Scenario.fresh = None
  ∧ LeaseJob Scenario.queue "hostA" true Scenario.fresh
    = (Ok (PStr "suite1", Scenario.first_job),
       Client Scenario.base_url Scenario.first_job (Some Scenario.heartbeat),
       [EvPost "http://localhost:8080/_ah/api/job_queue/v1/get"
               (PDict {[ "hostname" := PStr "hostA" ]});
        EvSetJob Scenario.first_job;
        EvThreadStart "leased" 60]).
Proof.
  split; [done|]. split; [reflexivity|].
  apply (LeaseJob_starts_heartbeat Scenario.queue Scenario.fresh
           "hostA" Scenario.queue_answer Scenario.first_job [Scenario.second_job])
    with (test_name := "suite1/caseX");
    [done | reflexivity | apply queue_return_code_ok | reflexivity
    | reflexivity | by left].
Defined.

Lemma LeaseJob_unnamed_job_witness :
  "hostA" ≠ ""
  ∧ (result_of (LeaseJob Scenario.queue_of_unnamed "hostA" true Scenario.fresh)
       = Err KeyError
     ∧ _job (client_of (LeaseJob Scenario.queue_of_unnamed "hostA" true Scenario.fresh))
       = PDict Scenario.unnamed_job
     ∧ is_Some (_heartbeat_thread
                  (client_of (LeaseJob Scenario.queue_of_unnamed "hostA" true
                                       Scenario.fresh))))
  ∧ LeaseJob Scenario.queue_of_unnamed "hostA" false Scenario.fresh
    = (Err KeyError, Scenario.fresh,
       [EvPost "http://localhost:8080/_ah/api/job_queue/v1/get"
               (PDict {[ "hostname" := PStr "hostA" ]})]).
Proof.
  split; [done|].
  apply (LeaseJob_unnamed_job Scenario.queue_of_unnamed Scenario.fresh "hostA"
           Scenario.unnamed_answer (PDict Scenario.unnamed_job) [])
    with (d := Scenario.unnamed_job);
    [done | reflexivity | apply unnamed_return_code_ok | reflexivity
    | reflexivity | reflexivity].
Defined.

Lemma ExecuteJob_completes_lease_witness :
  "hostA" ≠ ""
  ∧ result_of (LeaseJob Scenario.queue "hostA" false Scenario.fresh)
    = Ok (PStr "suite1", Scenario.first_job)
  ∧ result_of (ExecuteJob Scenario.first_job
                 (client_of (LeaseJob Scenario.queue "hostA" false Scenario.fresh)))
    = result_of (LeaseJob Scenario.queue "hostA" true Scenario.fresh)
  ∧ client_of (ExecuteJob Scenario.first_job
                 (client_of (LeaseJob Scenario.queue "hostA" false Scenario.fresh)))
    = client_of (LeaseJob Scenario.queue "hostA" true Scenario.fresh).
Proof.
  split; [done|].
  apply (ExecuteJob_completes_lease Scenario.queue Scenario.fresh
           "hostA" Scenario.queue_answer Scenario.first_job [Scenario.second_job])
    with (test_name := "suite1/caseX");
    [done | reflexivity | apply queue_return_code_ok | reflexivity | reflexivity].
Defined.

(** ** The dispatch category of a handed-over job *)

(** The first piece of a split is a prefix without the separator. *)
Lemma str_split_head (s cat : string) (pieces : list string) :
  str_split "/" s = cat :: pieces ->
  String.prefix cat s = true ∧ String.index 0 "/" cat = None.
Proof.
  revert cat pieces. induction s as [|a s IH]; intros cat pieces.
  - by intros [= <- <-].
  - cbn [str_split]. destruct (Ascii.eqb a "/") eqn:Ha.
    + by intros [= <- <-].
    + destruct (str_split "/" s) as [|piece rest] eqn:Hs; intros [= <- <-].
      * split.
        -- change (String.prefix (String a "") (String a s))
             with (if ascii_dec a a then String.prefix "" s else false).
           destruct (ascii_dec a a); [by destruct s|done].
        -- change (String.index 0 "/" (String a "")) with
             (if String.prefix "/" (String a "") then Some 0%nat else None).
           by rewrite prefix_slash, Ha.
      * destruct (IH piece rest eq_refl) as [Hprefix Hnone]. split.
        -- change (String.prefix (String a piece) (String a s))
             with (if ascii_dec a a then String.prefix piece s else false).
           by destruct (ascii_dec a a).
        -- change (String.index 0 "/" (String a piece)) with
             (if String.prefix "/" (String a piece) then Some 0%nat
              else match String.index 0 "/" piece with
                   | Some n => Some (S n)
                   | None => None
                   end).
           by rewrite prefix_slash, Ha, Hnone.
Qed.

(** X8. [ExecuteJob] on a job with a test name holds the job and returns
    it with a category that is a prefix of the test name and has no slash
    in it (the whole name when the name has none); it posts nothing. *)
Theorem ExecuteJob_category (job : pyval) (test_name : string) (c : client) :
  getitem job "test_name" = Ok (PStr test_name) ->
  let o := ExecuteJob job c in
  let category := Spec.before_first_slash test_name in
  result_of o = Ok (PStr category, job)
  ∧ String.prefix category test_name = true
  ∧ String.index 0 "/" category = None
  ∧ (String.index 0 "/" test_name = None -> category = test_name)
  ∧ _job (client_of o) = job
  ∧ filter is_post (trace_of o) = [].
Proof.
  intros Hname o category. subst o.
  assert (String.prefix category test_name = true
          ∧ String.index 0 "/" category = None) as [Hprefix Hnone].
  { pose proof (str_split_first test_name) as Hfirst. unfold index in Hfirst.
    destruct (str_split "/" test_name) as [|cat pieces] eqn:Hs; [done|].
    injection Hfirst as Hcat. fold category in Hcat. subst cat.
    by apply (str_split_head _ _ _ Hs). }
  assert (String.index 0 "/" test_name = None -> category = test_name) as Hwhole.
  { unfold category, Spec.before_first_slash. by intros ->. }
  unfold ExecuteJob. rewrite bind_emit.
  destruct (getitem_Ok_dict _ _ _ Hname) as (d & Hjob & _).
  replace (is_none job) with false by (by rewrite Hjob). cbn [negb].
  pose proof (hold_and_start job c) as Hhold.
  rewrite <- (bind_assoc (set_job job) (fun _ => StartHeartbeat "leased" 60)).
  destruct (_heartbeat_thread c) as [[s i dm [b|]]|];
    rewrite (bind_Ok _ _ _ _ _ _ Hhold), (category_of_job job test_name Hname);
    done.
Qed.

Lemma ExecuteJob_category_witness :
  getitem Scenario.first_job "test_name" = Ok (PStr "suite1/caseX")
  ∧ result_of (ExecuteJob Scenario.first_job Scenario.fresh)
    = Ok (PStr "suite1", Scenario.first_job)
  ∧ String.prefix "suite1" "suite1/caseX" = true
  ∧ String.index 0 "/" "suite1" = None
  ∧ (String.index 0 "/" "suite1/caseX" = None -> "suite1" = "suite1/caseX")
  ∧ _job (client_of (ExecuteJob Scenario.first_job Scenario.fresh))
    = Scenario.first_job
  ∧ filter is_post (trace_of (ExecuteJob Scenario.first_job Scenario.fresh)) = [].
Proof.
  split; [reflexivity|].
  apply (ExecuteJob_category Scenario.first_job "suite1/caseX" Scenario.fresh).
  reflexivity.
Defined.

(** ** The heartbeat body *)

(** A turn of the loop as the client sees it is the turn of the thread
    that the client holds, on the network of the call. *)
Lemma UpdateLeasedJobStatus_tick_turn (post : transport) (update_interval : Z)
    (c : client) :
  UpdateLeasedJobStatus_tick post update_interval c
  = UpdateLeasedJobStatus_turn (_heartbeat_thread c ≫= keep_running) post
                               update_interval c.
Proof.
  unfold UpdateLeasedJobStatus_tick, UpdateLeasedJobStatus_turn.
  rewrite bind_self.
  destruct (_heartbeat_thread c) as [[s i dm [[]|]]|];
    cbn [mbind option_bind keep_running from_option id];
    by rewrite ?bind_self.
Qed.

Section HeartbeatBody.

Variables (post : transport) (c : client) (status : string) (update_interval : Z).
Variables (d : gmap string pyval) (value : Z).

Let url : string := _url c +:+ "job_queue/v1/heartbeat".
Let marked : pyval := PDict (<["status" := PInt value]> d).
Let c1 : client := Client (_url c) marked (_heartbeat_thread c).

Hypothesis holds : _job c = PDict d.
Hypothesis known : JOB_STATUS_DICT !! status = Some value.

(** The body up to its loop writes the status, whatever it was. *)
Lemma UpdateLeasedJobStatus_enter_marks :
  UpdateLeasedJobStatus_enter status c
  = (Ok true, c1, [EvSetJobItem "status" (PInt value)]).
Proof using holds known.
  unfold UpdateLeasedJobStatus_enter. rewrite bind_self, holds. cbn [is_none].
  unfold job_status. rewrite known, bind_lift_Ok.
  erewrite bind_Ok by (unfold set_job_item; rewrite holds; reflexivity).
  reflexivity.
Qed.




(** X10. The heartbeat body of a thread that was asked to stop before it
    got to run still writes the status into the held job, but posts
    nothing and does not sleep, however many turns it is given. *)
Theorem UpdateLeasedJobStatus_after_stop (turns : nat) (th : thread) :
  _heartbeat_thread c = Some th ->
  keep_running th = Some false ->
  UpdateLeasedJobStatus post status update_interval turns c
  = (Ok tt, c1, [EvSetJobItem "status" (PInt value)]).
Proof using holds known.
  intros Hth Hstop. unfold UpdateLeasedJobStatus.
  rewrite (bind_Ok _ _ _ _ _ _ UpdateLeasedJobStatus_enter_marks).
  destruct turns as [|n]; [done|].
  cbn [UpdateLeasedJobStatus_loop]. unfold UpdateLeasedJobStatus_tick.
  rewrite bind_assoc, bind_self. cbn [c1 _heartbeat_thread].
  by rewrite Hth, Hstop.
Qed.

End HeartbeatBody.

(** The heartbeat body on a client without a job. *)
Lemma UpdateLeasedJobStatus_no_job (post : transport) (status : string)
    (update_interval : Z) (turns : nat) (c : client) :
  _job c = PNone ->
  UpdateLeasedJobStatus post status update_interval turns c = (Ok tt, c, []).
Proof.
  intros Hjob. unfold UpdateLeasedJobStatus, UpdateLeasedJobStatus_enter.
  by rewrite bind_assoc, bind_self, Hjob.
Qed.

(** X11. Once [StopHeartbeat] has returned, a heartbeat body that gets to
    run only then (for any status name, any interval, any number of
    turns) returns at once: it makes no request and changes nothing. *)
Theorem UpdateLeasedJobStatus_after_release (post post' : transport)
    (status infra_log_url status' : string) (update_interval : Z) (turns : nat)
    (c c' : client) (t : list event) :
  StopHeartbeat post status infra_log_url c = (Ok tt, c', t) ->
  UpdateLeasedJobStatus post' status' update_interval turns c' = (Ok tt, c', []).
Proof.
  intros Hstop. apply StopHeartbeat_returned in Hstop as (th & _ & ->).
  by apply UpdateLeasedJobStatus_no_job.
Qed.


Lemma UpdateLeasedJobStatus_after_stop_witness :
  let stopped := Thread "leased" 60 true (Some false) in
  let c := Client Scenario.base_url (Scenario.job_with (PInt 2)) (Some stopped) in
  UpdateLeasedJobStatus Scenario.queue "leased" 60 5 c
  = (Ok tt, Client Scenario.base_url (Scenario.job_with (PInt 1)) (Some stopped),
     [EvSetJobItem "status" (PInt 1)]).
Proof.
  exact (UpdateLeasedJobStatus_after_stop Scenario.queue
           (Client Scenario.base_url (Scenario.job_with (PInt 2))
                   (Some (Thread "leased" 60 true (Some false))))
           "leased" 60
           {[ "test_name" := PStr "suite1/caseX"; "status" := PInt 2 ]} 1
           eq_refl eq_refl 5 (Thread "leased" 60 true (Some false))
           eq_refl eq_refl).
Defined.

Lemma UpdateLeasedJobStatus_after_release_witness :
  StopHeartbeat Scenario.queue "complete" "gs://logs/1" (Scenario.holder (PInt 1))
    = (Ok tt, Scenario.released,
       trace_of (StopHeartbeat Scenario.queue "complete" "gs://logs/1"
                               (Scenario.holder (PInt 1))))
  ∧ UpdateLeasedJobStatus Scenario.queue "leased" 60 4 Scenario.released
    = (Ok tt, Scenario.released, []).
Proof.
  assert (StopHeartbeat Scenario.queue "complete" "gs://logs/1"
                        (Scenario.holder (PInt 1))
          = (Ok tt, Scenario.released,
             trace_of (StopHeartbeat Scenario.queue "complete" "gs://logs/1"
                                     (Scenario.holder (PInt 1))))) as Hstop
    by (vm_compute; reflexivity).
  split; [exact Hstop|].
  exact (UpdateLeasedJobStatus_after_release _ Scenario.queue _ _ "leased" 60 4
           _ _ _ Hstop).
Defined.

(** ** The final push *)

Section Release.

Variables (post : transport) (status infra_log_url : string) (c : client).
Variables (th : thread) (d : gmap string pyval) (current : pyval).

Let url : string := _url c +:+ "job_queue/v1/heartbeat".
Let stopped : thread :=
  Thread (th_status th) (th_interval th) (daemon th) (Some false).
Let noted (record : gmap string pyval) : pyval :=
  PDict (<["infra_log_url" := PStr infra_log_url]> record).

Hypothesis has_thread : _heartbeat_thread c = Some th.
Hypothesis holds : _job c = PDict d.
Hypothesis has_status : d !! "status" = Some current.

(** [StopHeartbeat] from the guarded transition on: [record] is the job
    as the transition left it. *)
Lemma StopHeartbeat_push (record : gmap string pyval) (tg : list event) :
  SetJobStatusFromLeasedTo status (Client (_url c) (PDict d) (Some stopped))
    = (Ok tt, Client (_url c) (PDict record) (Some stopped), tg) ->
  StopHeartbeat post status infra_log_url c =
  after (EvSetKeepRunning false
           :: tg ++ [EvSetJobItem "infra_log_url" (PStr infra_log_url);
                     EvPost url (noted record)])
    match post url (noted record) with
    | Refused => (Err ConnectionError, Client (_url c) (noted record) (Some stopped), [])
    | Answered r =>
        (Ok tt, Client (_url c) PNone (Some stopped),
         (if negb (status_code r =? codes_ok)
          then [EvLog "StopHeartbeat error"] else [])
         ++ [EvSetJob PNone])
    end.
Proof using has_thread holds.
  intros Hguard. unfold StopHeartbeat.
  erewrite bind_Ok by (unfold set_keep_running; rewrite has_thread; reflexivity).
  rewrite bind_self. cbn [_job _url]. rewrite holds. cbn [is_none].
  fold stopped. rewrite (bind_Ok _ _ _ _ _ _ Hguard).
  erewrite bind_Ok by reflexivity.
  rewrite bind_self. cbn [_job _url].
  unfold requests_post. rewrite bind_assoc, bind_emit. fold url (noted record).
  destruct (post url (noted record)) as [r|].
  - rewrite bind_ret. unfold after.
    destruct (negb (status_code r =? codes_ok));
      cbn [result_of client_of trace_of fst snd bind log_error emit ret set_job
           _url _heartbeat_thread app];
      by rewrite <- !app_assoc.
  - unfold after. cbn. by rewrite <- !app_assoc.
Qed.

(** X12. Releasing a job whose status is [leased]: the single request of
    [StopHeartbeat] carries the job with the value of the final status
    and with the log URL; if it is answered, with whatever code, the call
    returns and the client holds no job. *)
Theorem StopHeartbeat_pushes_final_status (value : Z) :
  eq_int current 1 = true ->
  JOB_STATUS_DICT !! status = Some value ->
  let o := StopHeartbeat post status infra_log_url c in
  let final := noted (<["status" := PInt value]> d) in
  filter is_post (trace_of o) = [EvPost url final]
  ∧ (post url final ≠ Refused ->
     result_of o = Ok tt ∧ client_of o = Client (_url c) PNone (Some stopped)).
Proof using has_thread holds has_status.
  intros Hleased Hvalue o final. subst o.
  rewrite (StopHeartbeat_push (<["status" := PInt value]> d)
             [EvSetJobItem "status" (PInt value)]).
  2:{ rewrite SetJobStatusFromLeasedTo_cases. cbn [_job _url _heartbeat_thread].
      by rewrite has_status, Hleased, Hvalue. }
  fold final. destruct (post url final) as [r|]; [|done].
  split; [|done]. by destruct (negb (status_code r =? codes_ok)).
Qed.

(** X13. Releasing a job whose status is not [leased] (the heartbeat
    thread has not yet marked it, or it is final already): the final
    status is ignored, even a name that is no status, and the request
    carries the job with the status it had and the log URL. *)
Theorem StopHeartbeat_keeps_other_status :
  eq_int current 1 = false ->
  let o := StopHeartbeat post status infra_log_url c in
  filter is_post (trace_of o) = [EvPost url (noted d)]
  ∧ filter is_status_write (trace_of o) = []
  ∧ (post url (noted d) ≠ Refused ->
     result_of o = Ok tt ∧ client_of o = Client (_url c) PNone (Some stopped)).
Proof using has_thread holds has_status.
  intros Hother o. subst o.
  rewrite (StopHeartbeat_push d []).
  2:{ rewrite SetJobStatusFromLeasedTo_cases. cbn [_job _url _heartbeat_thread].
      by rewrite has_status, Hother. }
  destruct (post url (noted d)) as [r|]; [|done].
  by destruct (negb (status_code r =? codes_ok)).
Qed.

(** X14. Releasing a [leased] job with a name that is no status raises
    [KeyError] once the heartbeat has been asked to stop: nothing is
    posted and the job stays held, still [leased], with no heartbeat to
    come. *)
Theorem StopHeartbeat_unknown_status :
  eq_int current 1 = true ->
  JOB_STATUS_DICT !! status = None ->
  StopHeartbeat post status infra_log_url c
  = (Err KeyError, Client (_url c) (PDict d) (Some stopped),
     [EvSetKeepRunning false]).
Proof using has_thread holds has_status.
  intros Hleased Hunknown. unfold StopHeartbeat.
  erewrite bind_Ok by (unfold set_keep_running; rewrite has_thread; reflexivity).
  rewrite bind_self. cbn [_job _url]. rewrite holds. cbn [is_none].
  fold stopped. erewrite bind_Err; [reflexivity|].
  rewrite SetJobStatusFromLeasedTo_cases. cbn [_job _url _heartbeat_thread].
  by rewrite has_status, Hleased, Hunknown.
Qed.

End Release.

(** The job of the scenario, leased, is released as [complete] while the
    server answers 500. *)
Lemma StopHeartbeat_pushes_final_status_witness :
  let o := StopHeartbeat (Scenario.answering 500) "complete" "gs://logs/1"
                         (Scenario.holder (PInt 1)) in
  let final :=
    PDict {[ "test_name" := PStr "suite1/caseX"; "status" := PInt 2;
             "infra_log_url" := PStr "gs://logs/1" ]} in
  filter is_post (trace_of o)
    = [EvPost "http://localhost:8080/_ah/api/job_queue/v1/heartbeat" final]
  ∧ (Scenario.answering 500
       "http://localhost:8080/_ah/api/job_queue/v1/heartbeat" final ≠ Refused ->
     result_of o = Ok tt ∧ client_of o = Scenario.released).
Proof.
  exact (StopHeartbeat_pushes_final_status (Scenario.answering 500)
           "complete" "gs://logs/1" (Scenario.holder (PInt 1)) Scenario.heartbeat
           {[ "test_name" := PStr "suite1/caseX"; "status" := PInt 1 ]} (PInt 1)
           eq_refl eq_refl eq_refl 2 eq_refl eq_refl).
Defined.

(** The same job released before the heartbeat thread marked it: the
    server's [ready] is pushed back. *)
Lemma StopHeartbeat_keeps_other_status_witness :
  let o := StopHeartbeat Scenario.queue "complete" "gs://logs/1"
                         (Scenario.holder (PInt 0)) in
  let final :=
    PDict {[ "test_name" := PStr "suite1/caseX"; "status" := PInt 0;
             "infra_log_url" := PStr "gs://logs/1" ]} in
  filter is_post (trace_of o)
    = [EvPost "http://localhost:8080/_ah/api/job_queue/v1/heartbeat" final]
  ∧ filter is_status_write (trace_of o) = []
  ∧ (Scenario.queue
       "http://localhost:8080/_ah/api/job_queue/v1/heartbeat" final ≠ Refused ->
     result_of o = Ok tt ∧ client_of o = Scenario.released).
Proof.
  exact (StopHeartbeat_keeps_other_status Scenario.queue
           "complete" "gs://logs/1" (Scenario.holder (PInt 0)) Scenario.heartbeat
           {[ "test_name" := PStr "suite1/caseX"; "status" := PInt 0 ]} (PInt 0)
           eq_refl eq_refl eq_refl eq_refl).
Defined.

Lemma StopHeartbeat_unknown_status_witness :
  StopHeartbeat Scenario.queue "done" "gs://logs/1" (Scenario.holder (PInt 1))
  = (Err KeyError,
     Client Scenario.base_url (Scenario.job_with (PInt 1))
            (Some (Thread "leased" 60 true (Some false))),
     [EvSetKeepRunning false]).
Proof.
  exact (StopHeartbeat_unknown_status Scenario.queue
           "done" "gs://logs/1" (Scenario.holder (PInt 1)) Scenario.heartbeat
           {[ "test_name" := PStr "suite1/caseX"; "status" := PInt 1 ]} (PInt 1)
           eq_refl eq_refl eq_refl eq_refl eq_refl).
Defined.

(** ** Uploads of builds, devices and the host version *)

Section Uploads.

Variables (post : transport) (c : client).

(** The loop of [UploadBuildInfo] when every request is answered. *)
Lemma UploadBuildInfo_loop_answered (url : string) (builds : list pyval) (fail : bool) :
  (∀ build, In build builds -> post url build ≠ Refused) ->
  ∃ t, UploadBuildInfo_loop post url builds fail c
       = (Ok (fail || negb (forallb (accepted post url) builds)), c, t)
       ∧ filter is_post t = EvPost url <$> builds.
Proof using Type.
  revert fail. induction builds as [|build builds IH]; intros fail Hnet.
  - exists []. by rewrite orb_false_r.
  - cbn [UploadBuildInfo_loop forallb]. unfold requests_post, accepted at 1.
    rewrite bind_assoc, bind_emit.
    destruct (post url build) as [r|] eqn:Hr; [|by destruct (Hnet build (or_introl eq_refl))].
    rewrite bind_ret.
    destruct (status_code r =? codes_ok); cbn [negb andb].
    + rewrite bind_ret.
      destruct (IH fail) as (t & -> & Ht); [by intros b Hb; apply Hnet; right|].
      exists (EvPost url build :: t). split; [done|].
      by rewrite filter_is_post_cons, Ht.
    + unfold log_error. rewrite bind_assoc, bind_emit, bind_ret.
      destruct (IH true) as (t & -> & Ht); [by intros b Hb; apply Hnet; right|].
      exists (EvPost url build :: EvLog "UploadBuildInfo error" :: t).
      split; [by rewrite orb_true_r|].
      by rewrite !filter_is_post_cons, Ht.
Qed.

(** X15. [UploadBuildInfo], when every request is answered, posts each
    build once, in the order of the list, and returns whether all of
    them were answered with 200; a rejected build does not stop the
    others from being sent. With no build it returns [True] without a
    request. The client is unchanged. *)
Theorem UploadBuildInfo_all_builds (builds : list pyval) :
  let url := _url c +:+ "build_info/v1/set" in
  (∀ build, In build builds -> post url build ≠ Refused) ->
  let o := UploadBuildInfo post builds c in
  result_of o = Ok (forallb (accepted post url) builds)
  ∧ client_of o = c
  ∧ filter is_post (trace_of o) = EvPost url <$> builds.
Proof using Type.
  intros url Hnet o. subst o. unfold UploadBuildInfo. rewrite bind_self.
  destruct (UploadBuildInfo_loop_answered url builds false Hnet) as (t & Hloop & Ht).
  rewrite (bind_Ok _ _ _ _ _ _ Hloop). cbn [orb].
  by destruct (forallb (accepted post url) builds); cbn [negb]; rewrite after_ret.
Qed.

(** The loop of [UploadBuildInfo] up to a request that is refused. *)
Lemma UploadBuildInfo_loop_refused (url : string) (sent : list pyval)
    (build : pyval) (unsent : list pyval) (fail : bool) :
  (∀ b, In b sent -> post url b ≠ Refused) ->
  post url build = Refused ->
  ∃ t, UploadBuildInfo_loop post url (sent ++ build :: unsent) fail c
       = (Err ConnectionError, c, t)
       ∧ filter is_post t = EvPost url <$> (sent ++ [build]).
Proof using Type.
  intros Hnet Hrefused. revert fail Hnet.
  induction sent as [|b sent IH]; intros fail Hnet.
  - cbn [app UploadBuildInfo_loop]. unfold requests_post.
    rewrite bind_assoc, bind_emit, Hrefused. by eexists.
  - cbn [app UploadBuildInfo_loop]. unfold requests_post.
    rewrite bind_assoc, bind_emit.
    destruct (post url b) as [r|] eqn:Hr; [|by destruct (Hnet b (or_introl eq_refl))].
    rewrite bind_ret.
    destruct (negb (status_code r =? codes_ok)).
    + unfold log_error. rewrite bind_assoc, bind_emit, bind_ret.
      destruct (IH true) as (t & -> & Ht); [by intros x Hx; apply Hnet; right|].
      eexists. split; [reflexivity|].
      cbn [after trace_of snd app]. by rewrite !filter_is_post_cons, Ht.
    + rewrite bind_ret.
      destruct (IH fail) as (t & -> & Ht); [by intros x Hx; apply Hnet; right|].
      eexists. split; [reflexivity|].
      cbn [after trace_of snd app]. by rewrite !filter_is_post_cons, Ht.
Qed.

(** X16. When a request of [UploadBuildInfo] is refused, the
    [ConnectionError] ends the call: the builds before it have been
    posted, the ones after it are not, and no result is returned. *)
Theorem UploadBuildInfo_refused (sent : list pyval) (build : pyval)
    (unsent : list pyval) :
  let url := _url c +:+ "build_info/v1/set" in
  (∀ b, In b sent -> post url b ≠ Refused) ->
  post url build = Refused ->
  let o := UploadBuildInfo post (sent ++ build :: unsent) c in
  result_of o = Err ConnectionError
  ∧ client_of o = c
  ∧ filter is_post (trace_of o) = EvPost url <$> (sent ++ [build]).
Proof using Type.
  intros url Hnet Hrefused o. subst o. unfold UploadBuildInfo. rewrite bind_self.
  destruct (UploadBuildInfo_loop_refused url sent build unsent false Hnet Hrefused)
    as (t & Hloop & Ht).
  by rewrite (bind_Err _ _ _ _ _ _ Hloop).
Qed.

(** A request inside [try: ... except ConnectionError]. *)
Lemma guarded_post (url : string) (payload : pyval) :
  try_except
    (let! response := requests_post post url payload in ret (Some response))
    (fun e => bool_decide (e = ConnectionError))
    (do! emit (EvLog "ConnectionError") in ret None) c
  = match post url payload with
    | Answered r => (Ok (Some r), c, [EvPost url payload])
    | Refused => (Ok None, c, [EvPost url payload; EvLog "ConnectionError"])
    end.
Proof using Type.
  unfold try_except, requests_post. rewrite bind_assoc, bind_emit.
  by destruct (post url payload).
Qed.

(** Building the device entries has no effect; it gives the entries of
    [device_entry] or raises at the first device that has none. *)
Lemma device_entries_spec (devices : list pyval) :
  match mapM device_entry devices with
  | Some entries => device_entries devices c = (Ok entries, c, [])
  | None => ∃ e, device_entries devices c = (Err e, c, [])
                 ∧ (e = KeyError ∨ e = TypeError)
  end.
Proof using Type.
  induction devices as [|device devices IH]; [done|].
  cbn [mapM device_entries].
  destruct device as [| | | | | |d]; cbn [device_entry getitem mbind option_bind];
    try (eexists; split; [reflexivity|by right]).
  destruct (d !! "serial") as [serial|];
    [|eexists; split; [reflexivity|by left]].
  rewrite bind_lift_Ok.
  destruct (d !! "product") as [product|];
    [|eexists; split; [reflexivity|by left]].
  rewrite bind_lift_Ok.
  destruct (d !! "status") as [status|];
    [|eexists; split; [reflexivity|by left]].
  rewrite bind_lift_Ok.
  destruct (mapM device_entry devices) as [entries|];
    cbn [mbind option_bind mret option_ret].
  - by rewrite (bind_Ok _ _ _ _ _ _ IH).
  - destruct IH as (e & He & Hkind).
    exists e. by rewrite (bind_Err _ _ _ _ _ _ He).
Qed.

(** X17. [UploadDeviceInfo] for devices that all have a serial, a product
    and a status makes one request, whose payload is the host name and,
    per device, just these three items (other items of a device are not
    sent). It returns [True] when the request is answered with 200 and
    [False] when it is answered otherwise or refused; the client is
    unchanged. *)
Theorem UploadDeviceInfo_one_request (hostname : string) (devices entries : list pyval) :
  mapM device_entry devices = Some entries ->
  let url := _url c +:+ "host_info/v1/set" in
  let payload := PDict (<[ "devices" := PList entries ]>
                        (<[ "hostname" := PStr hostname ]> ∅)) in
  let o := UploadDeviceInfo post hostname devices c in
  result_of o = Ok (accepted post url payload)
  ∧ client_of o = c
  ∧ filter is_post (trace_of o) = [EvPost url payload]
  ∧ length entries = length devices.
Proof using Type.
  intros Hentries url payload o. subst o url payload.
  pose proof (device_entries_spec devices) as Hspec. rewrite Hentries in Hspec.
  unfold UploadDeviceInfo. rewrite bind_self, (bind_Ok _ _ _ _ _ _ Hspec).
  assert (length entries = length devices) as Hlen.
  { symmetry. apply mapM_Some_1 in Hentries. by eapply Forall2_length. }
  unfold accepted.
  match goal with |- context [post ?u ?p] =>
    pose proof (guarded_post u p) as Htry; destruct (post u p) as [r|] end;
    rewrite (bind_Ok _ _ _ _ _ _ Htry); [|done].
  by destruct (status_code r =? codes_ok).
Qed.

(** X18. [UploadDeviceInfo] with a device that lacks one of the three
    items (or is no dict) raises [KeyError] (or [TypeError]) while the
    payload is built: nothing is posted, also not the devices that are
    complete, and the client is unchanged. *)
Theorem UploadDeviceInfo_incomplete_device (hostname : string) (devices : list pyval) :
  mapM device_entry devices = None ->
  ∃ e, UploadDeviceInfo post hostname devices c = (Err e, c, [])
       ∧ (e = KeyError ∨ e = TypeError).
Proof using Type.
  intros Hentries.
  pose proof (device_entries_spec devices) as Hspec. rewrite Hentries in Hspec.
  destruct Hspec as (e & He & Hkind). exists e. split; [|done].
  unfold UploadDeviceInfo. by rewrite bind_self, (bind_Err _ _ _ _ _ _ He).
Qed.

(** X19. [UploadHostVersion] always returns: it makes one request with
    the host name and the version, and whether that is answered with
    200, answered otherwise or refused, no exception leaves the call and
    the client is unchanged. *)
Theorem UploadHostVersion_always_returns (hostname vtslab_version : string) :
  let o := UploadHostVersion post hostname vtslab_version c in
  result_of o = Ok tt
  ∧ client_of o = c
  ∧ filter is_post (trace_of o)
    = [EvPost (_url c +:+ "lab_info/v1/set_version")
              (PDict (<[ "vtslab_version" := PStr vtslab_version ]>
                      (<[ "hostname" := PStr hostname ]> ∅)))].
Proof using Type.
  intros o. subst o. unfold UploadHostVersion. rewrite bind_self.
  match goal with |- context [requests_post post ?u ?p] =>
    pose proof (guarded_post u p) as Htry; destruct (post u p) as [r|] end;
    rewrite (bind_Ok _ _ _ _ _ _ Htry); [|done].
  by destruct (negb (status_code r =? codes_ok)).
Qed.

End Uploads.

(** Two builds sent to a server that answers 500 to both. *)
Lemma UploadBuildInfo_all_builds_witness :
  let builds := [Scenario.build "1"; Scenario.build "2"] in
  let o := UploadBuildInfo (Scenario.answering 500) builds Scenario.fresh in
  result_of o = Ok false
  ∧ client_of o = Scenario.fresh
  ∧ filter is_post (trace_of o)
    = EvPost "http://localhost:8080/_ah/api/build_info/v1/set" <$> builds.
Proof.
  apply (UploadBuildInfo_all_builds (Scenario.answering 500) Scenario.fresh
           [Scenario.build "1"; Scenario.build "2"]).
  intros build _. vm_compute. discriminate.
Defined.

(** Three builds, the server out of reach for the second. *)
Lemma UploadBuildInfo_refused_witness :
  let o := UploadBuildInfo Scenario.picky
             ([Scenario.build "1"] ++ PDict ∅ :: [Scenario.build "3"])
             Scenario.fresh in
  result_of o = Err ConnectionError
  ∧ client_of o = Scenario.fresh
  ∧ filter is_post (trace_of o)
    = EvPost "http://localhost:8080/_ah/api/build_info/v1/set"
      <$> ([Scenario.build "1"] ++ [PDict ∅]).
Proof.
  apply (UploadBuildInfo_refused Scenario.picky Scenario.fresh
           [Scenario.build "1"] (PDict ∅) [Scenario.build "3"]).
  - intros b [<- | []]. vm_compute. discriminate.
  - vm_compute; reflexivity.
Defined.

Lemma UploadDeviceInfo_one_request_witness :
  let payload := PDict {[ "hostname" := PStr "hostA";
                          "devices" := PList [Scenario.device_sent] ]} in
  let o := UploadDeviceInfo Scenario.queue "hostA" [Scenario.device] Scenario.fresh in
  mapM device_entry [Scenario.device] = Some [Scenario.device_sent]
  ∧ result_of o = Ok true
  ∧ client_of o = Scenario.fresh
  ∧ filter is_post (trace_of o)
    = [EvPost "http://localhost:8080/_ah/api/host_info/v1/set" payload]
  ∧ length [Scenario.device_sent] = length [Scenario.device].
Proof.
  split; [vm_compute; reflexivity|].
  apply (UploadDeviceInfo_one_request Scenario.queue Scenario.fresh "hostA"
           [Scenario.device] [Scenario.device_sent]).
  vm_compute; reflexivity.
Defined.

Lemma UploadDeviceInfo_incomplete_device_witness :
  mapM device_entry [Scenario.device; Scenario.device_without_status] = None
  ∧ ∃ e, UploadDeviceInfo Scenario.queue "hostA"
           [Scenario.device; Scenario.device_without_status] Scenario.fresh
         = (Err e, Scenario.fresh, [])
         ∧ (e = KeyError ∨ e = TypeError).
Proof.
  split; [vm_compute; reflexivity|].
  apply (UploadDeviceInfo_incomplete_device Scenario.queue Scenario.fresh "hostA"
           [Scenario.device; Scenario.device_without_status]).
  vm_compute; reflexivity.
Defined.

(** ** Uploads of labs and schedules *)



Section Batches.

Variables (post : transport) (c : client).

Hypothesis answers : ∀ url payload, post url payload ≠ Refused.

(** One request of a batch: the flag goes down when it is rejected. *)
Lemma batch_request (url : string) (payload : pyval) (message : string) (succ : bool) :
  ∃ t,
    (let! response := requests_post post url payload in
     if negb (status_code response =? codes_ok) then
       do! log_error message in ret false
     else ret succ) c
    = (Ok (succ && accepted post url payload), c, t)
    ∧ filter is_post t = [EvPost url payload]
    ∧ all_accepted post t = accepted post url payload.
Proof using answers.
  unfold requests_post, all_accepted, accepted at 1 3.
  rewrite bind_assoc, bind_emit.
  pose proof (answers url payload) as Hnet.
  unfold accepted. destruct (post url payload) as [r|] eqn:Hr; [|done].
  rewrite bind_ret.
  destruct (status_code r =? codes_ok) eqn:Hok; cbn [negb].
  - exists [EvPost url payload]. rewrite andb_true_r.
    repeat split. cbn. by rewrite Hr, Hok.
  - exists [EvPost url payload; EvLog message]. rewrite andb_false_r.
    repeat split. cbn. by rewrite Hr, Hok.
Qed.

(** The loop of [UploadLabInfo]. *)
Lemma UploadLabInfo_pbs_answered (url : string) (pbs : list Lab.t) (succ : bool) :
  ∃ t, UploadLabInfo_pbs post url pbs succ c
       = (Ok (succ && forallb (fun pb => accepted post url (lab_payload pb)) pbs),
          c, t)
       ∧ filter is_post t = (fun pb => EvPost url (lab_payload pb)) <$> pbs.
Proof using answers.
  revert succ. induction pbs as [|pb pbs IH]; intros succ.
  - exists []. by rewrite andb_true_r.
  - cbn [UploadLabInfo_pbs forallb].
    destruct (batch_request url (lab_payload pb) "UploadLabInfo error" succ)
      as (t1 & Hreq & Hposts & _).
    destruct (IH (succ && accepted post url (lab_payload pb))) as (t2 & Hrest & Ht2).
    exists (t1 ++ t2).
    rewrite <- bind_assoc, (bind_Ok _ _ _ _ _ _ Hreq), Hrest.
    split; [by rewrite andb_assoc|].
    cbn [after trace_of snd]. by rewrite filter_app, Hposts, Ht2.
Qed.

(** X20. [UploadLabInfo] on a server that answers every request: without
    labs ([None] or an empty list) it returns [None] and makes no
    request; when the clearing that was asked for is rejected it returns
    [False] after that one request; otherwise it posts every lab, in
    order, after the clearing if any, and returns whether all labs were
    answered with 200. The client is unchanged. *)
Theorem UploadLabInfo_batch (pbs : option (list Lab.t)) (clear_labinfo : bool) :
  let clearing := _url c +:+ "lab_info/v1/clear" in
  let setting := _url c +:+ "lab_info/v1/set" in
  let na := PDict {[ "name" := PStr "na" ]} in
  let o := UploadLabInfo post pbs clear_labinfo c in
  client_of o = c
  ∧ match pbs with
    | None | Some [] => result_of o = Ok None ∧ trace_of o = []
    | Some labs =>
        if clear_labinfo && negb (accepted post clearing na) then
          result_of o = Ok (Some false)
          ∧ filter is_post (trace_of o) = [EvPost clearing na]
        else
          result_of o
            = Ok (Some (forallb (fun pb => accepted post setting (lab_payload pb))
                                labs))
          ∧ filter is_post (trace_of o)
            = (if clear_labinfo then [EvPost clearing na] else [])
              ++ ((fun pb => EvPost setting (lab_payload pb)) <$> labs)
    end.
Proof using answers.
  intros clearing setting na o. subst o.
  destruct pbs as [[|pb pbs]|]; [done| |done].
  unfold UploadLabInfo. rewrite bind_self. fold clearing setting na.
  destruct (UploadLabInfo_pbs_answered setting (pb :: pbs) true)
    as (t & Hloop & Ht).
  destruct clear_labinfo; cbn [andb].
  - destruct (batch_request clearing na "UploadLabInfo error" true)
      as (t1 & Hreq & Hposts & _).
    cbn [andb] in Hreq. rewrite (bind_Ok _ _ _ _ _ _ Hreq).
    destruct (accepted post clearing na); cbn [negb].
    + rewrite (bind_Ok _ _ _ _ _ _ Hloop), !after_ret. cbn [andb].
      cbn [after result_of client_of trace_of fst snd].
      split; [done|]. split; [done|]. by rewrite filter_app, Hposts, Ht.
    + rewrite after_ret. cbn [result_of client_of trace_of fst snd].
      by rewrite Hposts.
  - rewrite bind_ret. cbn [negb].
    rewrite (bind_Ok _ _ _ _ _ _ Hloop), after_ret.
    cbn [andb result_of client_of trace_of fst snd]. by rewrite Ht.
Qed.





End Batches.

(** One lab, the data cleared first, on a server that takes everything. *)
Lemma UploadLabInfo_batch_witness :
  (∀ url payload, Scenario.answering 200 url payload ≠ Refused)
  ∧ result_of (UploadLabInfo (Scenario.answering 200) (Some [Scenario.lab]) true
                             Scenario.fresh)
    = Ok (Some true)
  ∧ filter is_post (trace_of (UploadLabInfo (Scenario.answering 200)
                                (Some [Scenario.lab]) true Scenario.fresh))
    = [EvPost "http://localhost:8080/_ah/api/lab_info/v1/clear"
              (PDict {[ "name" := PStr "na" ]});
       EvPost "http://localhost:8080/_ah/api/lab_info/v1/set"
              (lab_payload Scenario.lab)].
Proof.
  assert (∀ url payload, Scenario.answering 200 url payload ≠ Refused) as Hnet
    by done.
  split; [exact Hnet|].
  exact (proj2 (UploadLabInfo_batch (Scenario.answering 200) Scenario.fresh Hnet
                  (Some [Scenario.lab]) true)).
Defined.


(** * The upload command *)

Section UploadCommand.
Import Upload.

Variables (env : environment) (args : arguments).

Lemma first_missing_None (pieces : list string) :
  first_missing (isfile env) pieces = None
  <-> Forall (fun piece => isfile env (strip piece) = true) pieces.
Proof using Type.
  induction pieces as [|piece pieces IH]; [by split; [constructor|]|].
  cbn [first_missing]. destruct (isfile env (strip piece)) eqn:Hfile; cbn [negb].
  - rewrite IH. split; [by constructor|by inversion 1].
  - split; [done|]. inversion 1; congruence.
Qed.


(** X23. [Run] runs a shell command only after all its checks: [gsutil]
    was found, the source is no [latest-] name and is formatted without
    error, every space-separated piece of it, stripped, is an existing
    file, and the formatted destination begins with [gs://]. The command
    is then [<gsutil> cp <sources> <destination>], and it is the only
    one. *)
Theorem Run_uploads_only_checked (command : string) :
  In command (commands (Run env args).2) ->
  ∃ gsutil_path src_paths dest_path,
    GetGsutilPath env = Some gsutil_path ∧ gsutil_path ≠ ""
    ∧ String.prefix "latest-" (src args) = false
    ∧ FormatString env (src args) = Some src_paths
    ∧ Forall (fun piece => isfile env (strip piece) = true)
             (str_split " " src_paths)
    ∧ FormatString env (dest args) = Some dest_path
    ∧ String.prefix "gs://" dest_path = true
    ∧ command = copy_command gsutil_path src_paths dest_path
    ∧ commands (Run env args).2 = [command].
Proof using Type.
  unfold Run.
  destruct (GetGsutilPath env) as [[|a gsutil]|]; [by intros []| |by intros []].
  destruct (String.prefix "latest-" (src args)).
  { by destruct (device_image_info env !! drop_chars 7 (src args)); intros []. }
  destruct (FormatString env (src args)) as [src_paths|]; [|by intros []].
  destruct (first_missing (isfile env) (str_split " " src_paths)) eqn:Hfiles;
    [by intros []|].
  apply first_missing_None in Hfiles.
  destruct (FormatString env (dest args)) as [dest_path|]; [|by intros []].
  destruct (String.prefix "gs://" dest_path) eqn:Hgs; [|by intros []].
  cbn [negb].
  destruct (ExecuteOneShellCommand env _) as [[out err] code].
  intros Hin. exists (String a gsutil), src_paths, dest_path.
  destruct (negb (code =? 0)); cbn in Hin |- *;
    destruct Hin as [<-|[]]; by repeat split.
Qed.

(** X24. When all the checks pass, [Run] runs the copy command once and
    ends without a return value, whether the command succeeded or not: a
    failed copy (a non-zero code) only has its error output logged. *)
Theorem Run_upload_result (gsutil_path src_paths dest_path : string) :
  GetGsutilPath env = Some gsutil_path -> gsutil_path ≠ "" ->
  String.prefix "latest-" (src args) = false ->
  FormatString env (src args) = Some src_paths ->
  Forall (fun piece => isfile env (strip piece) = true) (str_split " " src_paths) ->
  FormatString env (dest args) = Some dest_path ->
  String.prefix "gs://" dest_path = true ->
  let command := copy_command gsutil_path src_paths dest_path in
  let '(_, stderr, err_code) := ExecuteOneShellCommand env command in
  Run env args
  = (ReturnNone,
     Shell command :: (if err_code =? 0 then [] else [LogError stderr])).
Proof using Type.
  intros Hgsutil Hne Hlatest Hsrc Hfiles Hdest Hgs command. subst command.
  unfold Run. rewrite Hgsutil.
  destruct gsutil_path as [|a gsutil]; [done|].
  rewrite Hlatest, Hsrc.
  apply first_missing_None in Hfiles. rewrite Hfiles, Hdest, Hgs. cbn [negb].
  destruct (ExecuteOneShellCommand env _) as [[out err] code].
  by destruct (code =? 0).
Qed.

End UploadCommand.


(** The image given by its path, the copy failing with code 1. *)
Lemma Run_uploads_only_checked_witness :
  let env := Upload.example_environment 1 in
  let args := Upload.Args "/tmp/system.img" "gs://bucket/system.img" in
  let command := "/usr/bin/gsutil cp /tmp/system.img gs://bucket/system.img" in
  In command (Upload.commands (Upload.Run env args).2)
  ∧ ∃ gsutil_path src_paths dest_path,
      Upload.GetGsutilPath env = Some gsutil_path ∧ gsutil_path ≠ ""
      ∧ String.prefix "latest-" (Upload.src args) = false
      ∧ Upload.FormatString env (Upload.src args) = Some src_paths
      ∧ Forall (fun piece => Upload.isfile env (strip piece) = true)
               (str_split " " src_paths)
      ∧ Upload.FormatString env (Upload.dest args) = Some dest_path
      ∧ String.prefix "gs://" dest_path = true
      ∧ command = Upload.copy_command gsutil_path src_paths dest_path
      ∧ Upload.commands (Upload.Run env args).2 = [command].
Proof.
  assert (In "/usr/bin/gsutil cp /tmp/system.img gs://bucket/system.img"
             (Upload.commands
                (Upload.Run (Upload.example_environment 1)
                            (Upload.Args "/tmp/system.img" "gs://bucket/system.img")).2))
    as Hin by (vm_compute; tauto).
  split; [exact Hin|].
  exact (Run_uploads_only_checked _ _ _ Hin).
Defined.

Lemma Run_upload_result_witness :
  Upload.Run (Upload.example_environment 1)
             (Upload.Args "/tmp/system.img" "gs://bucket/system.img")
  = (Upload.ReturnNone,
     [Upload.Shell "/usr/bin/gsutil cp /tmp/system.img gs://bucket/system.img";
      Upload.LogError "AccessDenied"]).
Proof.
  apply (Run_upload_result (Upload.example_environment 1)
           (Upload.Args "/tmp/system.img" "gs://bucket/system.img")
           "/usr/bin/gsutil" "/tmp/system.img" "gs://bucket/system.img");
    try reflexivity; [done|].
  repeat constructor.
Defined.
